(** * TrendRadar: time-window resolution, keyword classification and aggregation

    A shallow embedding of [src/main.py] (class [TrendAnalyzer]) and the
    properties of its core: [calculate_time_range], the three keyword
    loaders, [match_keywords] and [analyze_data].

    Conventions.
    - A Python [str] is a list of Unicode code points ([N]).
    - A Python [int] is a [Z]; [len] returns a [Z].
    - A [dict] (also [defaultdict] and [Counter]) is an association list in
      insertion order, because [sorted] in [analyze_data] observes that order.
    - A naive [datetime] is the number of microseconds since
      0001-01-01T00:00:00, with the range [datetime.min .. datetime.max] that
      Python enforces by raising [OverflowError].
    - Library functions whose tables are not part of the repository
      ([str.lower], [datetime.strptime]) are parameters of the development;
      concrete instances for ASCII letters and for zero-padded Gregorian dates
      are provided to evaluate the code on examples. *)

From Stdlib Require Import String Ascii.
From Stdlib Require Import List ZArith NArith Bool Lia Permutation Sorted.
Import ListNotations.

Set Implicit Arguments.

(* ================================================================= *)
(** ** Python strings *)

Module Py.

Definition char := N.
Definition str := list char.

(** ASCII literal as a list of code points. *)
Definition u (s : String.string) : str :=
  map Ascii.N_of_ascii (String.list_ascii_of_string s).
Arguments u s%_string.

Definition NL : char := 10%N.

Fixpoint str_eqb (a b : str) : bool :=
  match a, b with
  | [], [] => true
  | x :: a', y :: b' => N.eqb x y && str_eqb a' b'
  | _, _ => false
  end.

(** Truth value of a string or of a list: [if s:] *)
Definition truthy {A} (s : list A) : bool :=
  match s with [] => false | _ :: _ => true end.

(** [Py_UNICODE_ISSPACE]: the code points removed by [str.strip()]. *)
Definition is_space (c : char) : bool :=
  (((9 <=? c) && (c <=? 13)) || ((28 <=? c) && (c <=? 32))
   || (c =? 133) || (c =? 160) || (c =? 5760)
   || ((8192 <=? c) && (c <=? 8202))
   || (c =? 8232) || (c =? 8233) || (c =? 8239) || (c =? 8287)
   || (c =? 12288))%N.

Fixpoint lstrip (s : str) : str :=
  match s with
  | [] => []
  | c :: s' => if is_space c then lstrip s' else s
  end.

Fixpoint rstrip (s : str) : str :=
  match s with
  | [] => []
  | c :: s' =>
      match rstrip s' with
      | [] => if is_space c then [] else [c]
      | r => c :: r
      end
  end.

(** [s.strip()] *)
Definition strip (s : str) : str := lstrip (rstrip s).

(** [s.split(sep)] for a one-character separator: never the empty list. *)
Fixpoint split (sep : char) (s : str) : list str :=
  match s with
  | [] => [[]]
  | c :: s' =>
      if N.eqb c sep then [] :: split sep s'
      else match split sep s' with
           | [] => [[c]]
           | l :: rest => (c :: l) :: rest
           end
  end.

(** [s.startswith(p)] *)
Fixpoint startswith (p s : str) : bool :=
  match p, s with
  | [], _ => true
  | _ :: _, [] => false
  | x :: p', y :: s' => N.eqb x y && startswith p' s'
  end.

(** [p in s] for strings: substring containment. *)
Fixpoint contains (p s : str) : bool :=
  startswith p s ||
  match s with
  | [] => false
  | _ :: s' => contains p s'
  end.

(** [s[1:]] *)
Definition slice_from1 (s : str) : str := tl s.

(** [len(l)] *)
Definition len {A} (l : list A) : Z := Z.of_nat (length l).

(** *** [sorted(l, key=..., reverse=...)] and [list.sort(key=...)]

    Both are stable.  With [reverse=True] CPython reverses the list, sorts it
    stably in ascending key order and reverses the result. *)

Fixpoint insert_by {A} (key : A -> Z) (x : A) (l : list A) : list A :=
  match l with
  | [] => [x]
  | y :: l' => if (key y <? key x)%Z then y :: insert_by key x l' else x :: l
  end.

Fixpoint sort_asc {A} (key : A -> Z) (l : list A) : list A :=
  match l with
  | [] => []
  | x :: l' => insert_by key x (sort_asc key l')
  end.

Definition sorted {A} (key : A -> Z) (reverse : bool) (l : list A) : list A :=
  if reverse then rev (sort_asc key (rev l)) else sort_asc key l.

(** *** Dictionaries in insertion order *)

Definition dict (V : Type) := list (str * V).

Fixpoint dict_get {V} (k : str) (d : dict V) : option V :=
  match d with
  | [] => None
  | (k', v) :: d' => if str_eqb k k' then Some v else dict_get k d'
  end.

(** [d[k] = f(d[k])] on a [defaultdict] whose factory yields [dflt]: a
    missing key is created at the end, a present key keeps its position. *)
Fixpoint dict_update {V} (k : str) (f : V -> V) (dflt : V) (d : dict V)
  : dict V :=
  match d with
  | [] => [(k, f dflt)]
  | (k', v) :: d' =>
      if str_eqb k k' then (k', f v) :: d'
      else (k', v) :: dict_update k f dflt d'
  end.

(** [d.items()], [d.keys()] *)
Definition items {V} (d : dict V) : list (str * V) := d.
Definition keys {V} (d : dict V) : list str := map fst d.

(** [Counter(iterable)] *)
Definition Counter (l : list str) : dict Z :=
  fold_left (fun d k => dict_update k Z.succ 0%Z d) l [].

(** *** Exceptions *)

Inductive exn := ValueError | OverflowError.

Inductive result (A : Type) : Type :=
| Ok (a : A)
| Raise (e : exn).
Arguments Ok {A} a.
Arguments Raise {A} e.

Definition bind {A B} (m : result A) (k : A -> result B) : result B :=
  match m with
  | Ok a => k a
  | Raise e => Raise e
  end.

(** [try: body except ValueError: handler] *)
Definition try_except_ValueError {A} (body : result A) (handler : result A)
  : result A :=
  match body with
  | Raise ValueError => handler
  | r => r
  end.

(** *** [datetime] and [timedelta] *)

Definition datetime := Z.
Definition timedelta := Z.

Definition US_PER_SECOND : Z := 1000000.
Definition US_PER_HOUR : Z := 3600 * US_PER_SECOND.
Definition US_PER_DAY : Z := 24 * US_PER_HOUR.

(** [date.max.toordinal()], the ordinal of 9999-12-31; ordinal 1 is
    0001-01-01. *)
Definition MAXORDINAL : Z := 3652059.
Definition datetime_min : datetime := 0%Z.
Definition datetime_max : datetime := (MAXORDINAL * US_PER_DAY - 1)%Z.

Definition valid_datetime (d : datetime) : bool :=
  ((datetime_min <=? d) && (d <=? datetime_max))%Z.

(** A [timedelta] keeps [-999999999 <= days <= 999999999]. *)
Definition MAX_DELTA_DAYS : Z := 999999999.

Definition mk_timedelta (us : Z) : result timedelta :=
  let days := (us / US_PER_DAY)%Z in
  if ((- MAX_DELTA_DAYS <=? days) && (days <=? MAX_DELTA_DAYS))%Z
  then Ok us else Raise OverflowError.

Definition timedelta_days (d : Z) : result timedelta :=
  mk_timedelta (d * US_PER_DAY).
Definition timedelta_hours (h : Z) : result timedelta :=
  mk_timedelta (h * US_PER_HOUR).

(** [d - t] for a datetime [d] and a timedelta [t]. *)
Definition datetime_sub (d : datetime) (t : timedelta) : result datetime :=
  let r := (d - t)%Z in
  if valid_datetime r then Ok r else Raise OverflowError.

End Py.

Export Py.

Declare Scope py_scope.
Notation "x <- m ;; k" := (bind m (fun x => k))
  (at level 61, m at next level, right associativity) : py_scope.
Open Scope py_scope.
Open Scope Z_scope.

(* ================================================================= *)
(** ** Configuration and time window  ([CONFIG], [calculate_time_range]) *)

(** The entries of [CONFIG] read by [calculate_time_range]. *)
Record Config := {
  HISTORY_DAYS : Z;
  HISTORY_HOURS : Z;
  CUSTOM_START_DATE : str;
  CUSTOM_END_DATE : str
}.

Inductive Mode := custom_range | from_date | duration.

(** The [description] entry is an f-string over the values below; its
    wording is kept symbolic. *)
Inductive Description :=
| DescRange (start_date end_date : datetime)   (* "<start> 至 <end>" *)
| DescFrom (start_date : datetime)             (* "<start> 至今" *)
| DescPast (days hours : Z).                   (* "过去 <d> 天 <h> 小时" *)

Record TimeRange := {
  start_date : datetime;
  end_date : datetime;
  description : Description;
  mode : Mode
}.

Section TimeRange.

(** [datetime.strptime(s, '%Y-%m-%d')] *)
Variable strptime : str -> result datetime.

Variable CONFIG : Config.

(** Lines 109-111: [total_hours], with its default. *)
Definition total_hours : Z :=
  let total_hours := CONFIG.(HISTORY_DAYS) * 24 + CONFIG.(HISTORY_HOURS) in
  if total_hours <=? 0 then 24 else total_hours.

(** Lines 108-120: the day and hour counts. *)
Definition duration_range (now : datetime) : result TimeRange :=
  td <- timedelta_hours total_hours ;;
  start_time <- datetime_sub now td ;;
  Ok {| start_date := start_time;
        end_date := now;
        description := DescPast CONFIG.(HISTORY_DAYS) CONFIG.(HISTORY_HOURS);
        mode := duration |}.

(** Lines 71-88: the body of the first [try]. *)
Definition custom_range_body (now : datetime) : result TimeRange :=
  start_date <- strptime CONFIG.(CUSTOM_START_DATE) ;;
  end_date <- strptime CONFIG.(CUSTOM_END_DATE) ;;
  let end_date := if end_date >? now then now else end_date in
  start_date <-
    (if start_date >? end_date
     then td <- timedelta_days 1 ;; datetime_sub end_date td
     else Ok start_date) ;;
  Ok {| start_date := start_date;
        end_date := end_date;
        description := DescRange start_date end_date;
        mode := custom_range |}.

(** Lines 94-104: the body of the second [try]. *)
Definition from_date_body (now : datetime) : result TimeRange :=
  start_date <- strptime CONFIG.(CUSTOM_START_DATE) ;;
  start_date <-
    (if start_date >? now
     then td <- timedelta_days 1 ;; datetime_sub now td
     else Ok start_date) ;;
  Ok {| start_date := start_date;
        end_date := now;
        description := DescFrom start_date;
        mode := from_date |}.

(** [calculate_time_range], with [datetime.now()] passed in.  The second
    test is the [elif] of the first: after the first [except] control goes
    to the day and hour counts. *)
Definition calculate_time_range (now : datetime) : result TimeRange :=
  if truthy CONFIG.(CUSTOM_START_DATE) && truthy CONFIG.(CUSTOM_END_DATE)
  then try_except_ValueError (custom_range_body now) (duration_range now)
  else if truthy CONFIG.(CUSTOM_START_DATE)
  then try_except_ValueError (from_date_body now) (duration_range now)
  else duration_range now.

End TimeRange.

(** *** An instance of [strptime] for the format ['%Y-%m-%d']

    An instance for dates written with ASCII digits: a four-digit year, a
    month [1..12] and a day [1..31] with an optional leading zero (the day
    also with a leading space), then the calendar check of the [datetime]
    constructor.  Python's [strptime] also takes other Unicode decimal
    digits, which this instance rejects; it is used on ASCII dates only, in
    examples, and no general statement depends on it. *)

Definition MINUS : char := 45%N.

Definition digit (c : char) : option Z :=
  if ((48 <=? c) && (c <=? 57))%N then Some (Z.of_N c - 48) else None.

Definition parse_year (f : str) : option Z :=
  match f with
  | [a; b; c; d] =>
      match digit a, digit b, digit c, digit d with
      | Some a, Some b, Some c, Some d => Some (1000 * a + 100 * b + 10 * c + d)
      | _, _, _, _ => None
      end
  | _ => None
  end.

(** One or two digits, value in [1..hi]; [sp] allows a space as first of two. *)
Definition parse_1or2 (sp : bool) (hi : Z) (f : str) : option Z :=
  let check v := if (1 <=? v) && (v <=? hi) then Some v else None in
  match f with
  | [a] => match digit a with Some a => check a | None => None end
  | [a; b] =>
      match (if sp && N.eqb a 32 then Some 0 else digit a), digit b with
      | Some a, Some b =>
          if (a =? 0) && (b =? 0) then None else check (10 * a + b)
      | _, _ => None
      end
  | _ => None
  end.

Definition is_leap (y : Z) : bool :=
  ((y mod 4 =? 0) && (negb (y mod 100 =? 0) || (y mod 400 =? 0))).

Definition days_in_month (y m : Z) : Z :=
  if m =? 2 then (if is_leap y then 29 else 28)
  else if (m =? 4) || (m =? 6) || (m =? 9) || (m =? 11) then 30 else 31.

Definition days_before_year (y : Z) : Z :=
  let y := y - 1 in y * 365 + y / 4 - y / 100 + y / 400.

Fixpoint days_before_month_aux (y : Z) (n : nat) : Z :=
  match n with
  | O => 0
  | S n' => days_before_month_aux y n' + days_in_month y (Z.of_nat n)
  end.

Definition days_before_month (y m : Z) : Z :=
  days_before_month_aux y (Z.to_nat (m - 1)).

(** [date(y, m, d).toordinal()] *)
Definition ymd2ord (y m d : Z) : Z :=
  days_before_year y + days_before_month y m + d.

(** [datetime(y, m, d, hh, mm, ss)] for fields already in range. *)
Definition mk_datetime (y m d hh mm ss : Z) : datetime :=
  (ymd2ord y m d - 1) * US_PER_DAY + (hh * 3600 + mm * 60 + ss) * US_PER_SECOND.

Definition strptime_ymd (s : str) : result datetime :=
  match split MINUS s with
  | [fy; fm; fd] =>
      match parse_year fy, parse_1or2 false 12 fm, parse_1or2 true 31 fd with
      | Some y, Some m, Some d =>
          if (1 <=? y) && (d <=? days_in_month y m)
          then Ok (mk_datetime y m d 0 0 0)
          else Raise ValueError
      | _, _, _ => Raise ValueError
      end
  | _ => Raise ValueError
  end.

(* ================================================================= *)
(** ** Keyword lists  ([load_frequency_words], [load_filter_words],
       [load_must_words]) *)

Definition HASH : char := 35%N.
Definition BANG : char := 33%N.
Definition PLUS : char := 43%N.

(** The words returned when [frequency_words.txt] does not exist:
    "AI", "人工智能", "股市", "房价", "新能源", "教育", "就业". *)
Definition default_frequency_words : list str :=
  [ u "AI";
    [20154; 24037; 26234; 33021]%N;
    [32929; 24066]%N;
    [25151; 20215]%N;
    [26032; 33021; 28304]%N;
    [25945; 32946]%N;
    [23601; 19994]%N ].

(** Outcome of opening and reading [frequency_words.txt]. *)
Inductive FileRead :=
| FileContent (content : str)
| FileNotFound
| FileError.

(** The lines the three loaders iterate over:
    [f.read().strip().split('\n')], each then stripped. *)
Definition source_lines (content : str) : list str :=
  map strip (split NL (strip content)).

Definition load_frequency_words (file : FileRead) : list str :=
  match file with
  | FileContent content =>
      let content := strip content in
      if negb (truthy content) then []
      else
        filter (fun line =>
                  truthy line
                  && negb (startswith [HASH] line)
                  && negb (startswith [BANG] line)
                  && negb (startswith [PLUS] line))
               (map strip (split NL content))
  | FileNotFound => default_frequency_words
  | FileError => []
  end.

(** The loop shared by [load_filter_words] and [load_must_words]: keep the
    stripped lines that start with [prefix], without their first character. *)
Definition load_prefixed (prefix : char) (file : FileRead) : list str :=
  match file with
  | FileContent content =>
      map slice_from1
          (filter (startswith [prefix]) (map strip (split NL (strip content))))
  | FileNotFound | FileError => []
  end.

Definition load_filter_words : FileRead -> list str := load_prefixed BANG.
Definition load_must_words : FileRead -> list str := load_prefixed PLUS.

(* ================================================================= *)
(** ** The analyzer  ([match_keywords], [analyze_data]) *)

(** One collected headline, as built by [fetch_platform_data] and
    [collect_all_data].  The entries read with [item.get(key, default)] are
    optional. *)
Record Item := {
  title : option str;
  url : option str;
  rank : option Z;
  timestamp : option str;
  platform_name : str
}.

(** An element of a keyword's list in [keyword_matches]. *)
Record Match := {
  m_title : str;
  m_platform : str;
  m_rank : Z;
  m_url : str;
  m_timestamp : str;
  all_matched_keywords : list str
}.

Record ConfigSummary := {
  frequency_words_count : Z;
  filter_words_count : Z;
  must_words_count : Z;
  platforms_count : Z
}.

Record AnalysisResult := {
  total_items : Z;
  matched_count : Z;
  filtered_count : Z;
  platform_stats : dict Z;
  keyword_matches : dict (list Match);
  keyword_popularity : dict Z;
  sorted_keywords : list (str * Z);
  analysis_time : datetime;
  config_summary : ConfigSummary
}.

(** The attributes of [self].  [analysis_result] is [{}] until [run] stores
    the outcome of [analyze_data] in it. *)
Record TrendAnalyzer := {
  frequency_words : list str;
  filter_words : list str;
  must_words : list str;
  all_data : list Item;
  analysis_result : option AnalysisResult;
  time_range : TimeRange
}.

(** [len(PLATFORMS)] *)
Definition PLATFORMS_len : Z := 11.

(** The local variables of the loop of [analyze_data]. *)
Record Acc := {
  acc_keyword_matches : dict (list Match);
  acc_filtered_count : Z;
  acc_matched_count : Z
}.

Definition get {A} (o : option A) (default : A) : A :=
  match o with Some a => a | None => default end.

Section Analyzer.

(** [str.lower] *)
Variable lower : str -> str.

Variable self : TrendAnalyzer.

(** [match_keywords]: (matched words, is_filtered). *)
Definition match_keywords (title : str) : list str * bool :=
  if negb (truthy title) then ([], false)
  else
    let title_lower := lower title in
    if existsb (fun filter_word => contains (lower filter_word) title_lower)
               self.(filter_words)
    then ([], true)
    else
      let must_match_count :=
        len (filter (fun must_word => contains (lower must_word) title_lower)
                    self.(must_words)) in
      if truthy self.(must_words)
         && (must_match_count <? len self.(must_words))
      then ([], false)
      else
        (filter (fun word => contains (lower word) title_lower)
                self.(frequency_words), false).

Definition make_match (item : Item) (title : str)
           (matched_keywords : list str) : Match :=
  {| m_title := title;
     m_platform := item.(platform_name);
     m_rank := get item.(rank) 999;
     m_url := get item.(url) [];
     m_timestamp := get item.(timestamp) [];
     all_matched_keywords := matched_keywords |}.

(** One iteration of [for item in self.all_data]. *)
Definition analyze_item (acc : Acc) (item : Item) : Acc :=
  let title := get item.(title) [] in
  let '(matched_keywords, is_filtered) := match_keywords title in
  if is_filtered then
    {| acc_keyword_matches := acc.(acc_keyword_matches);
       acc_filtered_count := acc.(acc_filtered_count) + 1;
       acc_matched_count := acc.(acc_matched_count) |}
  else
    match matched_keywords with
    | [] => acc
    | primary_keyword :: _ =>
        {| acc_keyword_matches :=
             dict_update primary_keyword
               (fun l => l ++ [make_match item title matched_keywords]) []
               acc.(acc_keyword_matches);
           acc_filtered_count := acc.(acc_filtered_count);
           acc_matched_count := acc.(acc_matched_count) + 1 |}
    end.

Definition acc0 : Acc :=
  {| acc_keyword_matches := [];
     acc_filtered_count := 0;
     acc_matched_count := 0 |}.

Definition analyze_loop (data : list Item) : Acc :=
  fold_left analyze_item data acc0.

(** [analyze_data], with the reading of [datetime.now()] passed in; the
    formatted [analysis_time] is that instant cut to whole seconds. *)
Definition analyze_data (now : datetime) : AnalysisResult :=
  let acc := analyze_loop self.(all_data) in
  let keyword_popularity :=
    map (fun '(keyword, items) => (keyword, len items))
        (items acc.(acc_keyword_matches)) in
  {| total_items := len self.(all_data);
     matched_count := acc.(acc_matched_count);
     filtered_count := acc.(acc_filtered_count);
     platform_stats := Counter (map platform_name self.(all_data));
     keyword_matches :=
       map (fun '(keyword, l) => (keyword, sorted m_rank false l))
           acc.(acc_keyword_matches);
     keyword_popularity := keyword_popularity;
     sorted_keywords := sorted snd true (items keyword_popularity);
     analysis_time := now - now mod US_PER_SECOND;
     config_summary :=
       {| frequency_words_count := len self.(frequency_words);
          filter_words_count := len self.(filter_words);
          must_words_count := len self.(must_words);
          platforms_count := PLATFORMS_len |} |}.

(** Step 2 of [run]: [self.analysis_result = self.analyze_data()]. *)
Definition run_analysis (now : datetime) : AnalysisResult * TrendAnalyzer :=
  let result := analyze_data now in
  (result,
   {| frequency_words := self.(frequency_words);
      filter_words := self.(filter_words);
      must_words := self.(must_words);
      all_data := self.(all_data);
      analysis_result := Some result;
      time_range := self.(time_range) |}).

End Analyzer.

(** [TrendAnalyzer.__init__]: the three lists come from the same file. *)
Definition init (strptime : str -> result datetime) (CONFIG : Config)
           (file : FileRead) (now : datetime) : result TrendAnalyzer :=
  tr <- calculate_time_range strptime CONFIG now ;;
  Ok {| frequency_words := load_frequency_words file;
        filter_words := load_filter_words file;
        must_words := load_must_words file;
        all_data := [];
        analysis_result := None;
        time_range := tr |}.

(** [self.all_data = ...] (step 1 of [run]). *)
Definition set_all_data (self : TrendAnalyzer) (data : list Item)
  : TrendAnalyzer :=
  {| frequency_words := self.(frequency_words);
     filter_words := self.(filter_words);
     must_words := self.(must_words);
     all_data := data;
     analysis_result := self.(analysis_result);
     time_range := self.(time_range) |}.

(** [result] with its [analysis_time] entry replaced. *)
Definition set_analysis_time (r : AnalysisResult) (t : datetime)
  : AnalysisResult :=
  {| total_items := r.(total_items);
     matched_count := r.(matched_count);
     filtered_count := r.(filtered_count);
     platform_stats := r.(platform_stats);
     keyword_matches := r.(keyword_matches);
     keyword_popularity := r.(keyword_popularity);
     sorted_keywords := r.(sorted_keywords);
     analysis_time := t;
     config_summary := r.(config_summary) |}.

(** [str.lower] restricted to the ASCII letters; on strings of ASCII and
    uncased (for instance CJK) code points it is [str.lower]. *)
Definition ascii_lower (s : str) : str :=
  map (fun c => if ((65 <=? c) && (c <=? 90))%N then (c + 32)%N else c) s.

(* ================================================================= *)
(** ** Notions used in the statements *)

(** [x] occurs in [l], and [y] does not occur before that occurrence: the
    first [x] comes before the first [y], if there is a [y] at all. *)
Definition precedes {A} (x y : A) (l : list A) : Prop :=
  exists l1 l2, l = l1 ++ x :: l2 /\ ~ In y l1.

(** The elements whose sort key is [c]. *)
Definition key_is {A} (key : A -> Z) (c : Z) (a : A) : bool := key a =? c.

(** [d.keys()] after [d[k] = ...]. *)
Definition add_key (ks : list str) (k : str) : list str :=
  if existsb (str_eqb k) ks then ks else ks ++ [k].

(** [l.append({...})] for the match built from [item]. *)
Definition append_match (item : Item) (title : str) (mk : list str)
  : list Match -> list Match :=
  fun l => l ++ [make_match item title mk].

Section Primary.

Variable lower : str -> str.
Variable self : TrendAnalyzer.

(** [w.lower() in title.lower()] *)
Definition occurs_in (title w : str) : bool :=
  contains (lower w) (lower title).

(** [matched_keywords[0]], when there is one. *)
Definition primary_keyword (item : Item) : option str :=
  hd_error (fst (match_keywords lower self (get item.(title) []))).

(** The primary keywords of the headlines, in the order of [all_data]. *)
Definition primary_keywords (data : list Item) : list str :=
  flat_map (fun item => match primary_keyword item with
                        | Some k => [k]
                        | None => []
                        end) data.

(** The matches recorded for the headlines of [data] whose primary keyword
    is [k], in the order of [data]. *)
Definition matches_of (k : str) (data : list Item) : list Match :=
  flat_map
    (fun item =>
       let title := get item.(title) [] in
       match fst (match_keywords lower self title) with
       | [] => []
       | p :: ks =>
           if str_eqb p k then [make_match item title (p :: ks)] else []
       end) data.

End Primary.

(* ================================================================= *)
(** ** Notions used in the further statements *)

(** The test that [load_frequency_words] applies to a stripped line. *)
Definition is_frequency_line (line : str) : bool :=
  truthy line
  && negb (startswith [HASH] line)
  && negb (startswith [BANG] line)
  && negb (startswith [PLUS] line).

Section Classes.

Variable lower : str -> str.
Variable self : TrendAnalyzer.

(** The headline takes the [if is_filtered:] branch of the loop. *)
Definition is_filtered (item : Item) : bool :=
  snd (match_keywords lower self (get item.(title) [])).

(** The headline takes the [if matched_keywords:] branch of the loop. *)
Definition is_matched (item : Item) : bool :=
  truthy (fst (match_keywords lower self (get item.(title) []))).

End Classes.

Definition on_platform (p : str) (item : Item) : bool :=
  str_eqb item.(platform_name) p.

(** The sum of the counts of a list of (key, count) pairs. *)
Definition sum_counts (l : list (str * Z)) : Z :=
  fold_right Z.add 0 (map snd l).

(** Line 434 of [generate_feishu_report]:
    [item['title'][:60] + "..." if len(item['title']) > 60 else item['title']] *)
Definition title_preview (title : str) : str :=
  if len title >? 60 then firstn 60 title ++ u "..." else title.

(* ================================================================= *)
(** ** Processing a fetched feed  ([clean_text], [fetch_platform_data]) *)

(** A decoded JSON value.  A number is kept as an opaque token: the code
    passes it on or turns it into text, nothing else. *)
#[local] Unset Elimination Schemes.
Inductive json :=
| JNull
| JBool (b : bool)
| JNumber (token : str)
| JStr (s : str)
| JList (l : list json)
| JDict (d : dict json).
#[local] Set Elimination Schemes.

(** [d.get(key, default)] *)
Definition json_get (key : str) (default : json) (d : dict json) : json :=
  get (dict_get key d) default.

(** [CONFIG['MAX_RESULTS_PER_PLATFORM']] *)
Definition MAX_RESULTS_PER_PLATFORM : nat := 50.

(** The dictionary built for one entry of the feed. *)
Record Processed := {
  p_title : str;
  p_url : json;
  p_rank : Z;
  p_platform_id : str;
  p_timestamp : datetime;
  p_raw_data : json
}.

Section Fetch.

(** [str(v)] for a value that is not a string. *)
Variable py_str : json -> str.

(** The body of [clean_text] after its first test: [html.unescape] and the
    two [re.sub]. *)
Variable clean_body : str -> str.

(** [datetime.now()] as read while the entry of rank [i] is processed. *)
Variable clock : Z -> datetime.

Variable platform_id : str.

Definition str_of (v : json) : str :=
  match v with
  | JStr s => s
  | _ => py_str v
  end.

(** [clean_text] *)
Definition clean_text (text : str) : str :=
  if negb (truthy text) then [] else clean_body text.

(** The loop over [enumerate(news_list[:50], 1)], from rank [i] on.  An
    entry that is not an object makes [item.get] raise; the exception is
    caught by [except Exception] and the results are lost: [None]. *)
Fixpoint process_items (i : Z) (entries : list json)
  : option (list Processed) :=
  match entries with
  | [] => Some []
  | JDict item :: rest =>
      let processed_item :=
        {| p_title :=
             clean_text
               (strip (str_of (json_get (u "title")
                                        (json_get (u "name") (JStr []) item)
                                        item)));
           p_url := json_get (u "url") (json_get (u "link") (JStr []) item) item;
           p_rank := i;
           p_platform_id := platform_id;
           p_timestamp := clock i - clock i mod US_PER_SECOND;
           p_raw_data := JDict item |} in
      match process_items (i + 1) rest with
      | Some results =>
          Some (if truthy processed_item.(p_title)
                then processed_item :: results
                else results)
      | None => None
      end
  | _ :: _ => None
  end.

(** Lines 186-192: where the list of entries is, if the answer has one. *)
Definition news_list (data : json) : option json :=
  match data with
  | JDict d => Some (json_get (u "data") (json_get (u "list") (JList []) d) d)
  | JList _ => Some data
  | _ => None
  end.

(** [fetch_platform_data], from the outcome of the request on: [None] when
    the request or the decoding of the answer raised, otherwise the decoded
    answer.  Slicing a value that is not a list raises, or gives text whose
    characters are not objects; both end in [[]]. *)
Definition fetch_platform_data (response : option json) : list Processed :=
  match response with
  | None => []
  | Some data =>
      match news_list data with
      | Some (JList l) =>
          match process_items 1 (firstn MAX_RESULTS_PER_PLATFORM l) with
          | Some results => results
          | None => []
          end
      | _ => []
      end
  end.

End Fetch.

Definition is_object (v : json) : bool :=
  match v with JDict _ => true | _ => false end.

(* ================================================================= *)
(** ** Example data *)

Module Ex.

(** 2024-06-15 12:00:00 *)
Definition now : datetime := mk_datetime 2024 6 15 12 0 0.

Definition window : TimeRange :=
  {| start_date := mk_datetime 2024 6 14 12 0 0;
     end_date := now;
     description := DescPast 1 0;
     mode := duration |}.

Definition analyzer (fw filt must : list str) (data : list Item)
  : TrendAnalyzer :=
  {| frequency_words := fw;
     filter_words := filt;
     must_words := must;
     all_data := data;
     analysis_result := None;
     time_range := window |}.

Definition headline (t : string) (r : Z) (p : string) : Item :=
  {| title := Some (u t);
     url := None;
     rank := Some r;
     timestamp := None;
     platform_name := u p |}.

(** Three lines: "AI", "! foo " and "+bar". *)
Definition words_file : str :=
  u "AI" ++ NL :: u "! foo " ++ NL :: u "+bar".

(** Three lines: "AI", "!  " and "stock". *)
Definition bare_bang_file : str :=
  u "AI" ++ NL :: u "!  " ++ NL :: u "stock".

Definition config (start_s end_s : string) : Config :=
  {| HISTORY_DAYS := 1;
     HISTORY_HOURS := 0;
     CUSTOM_START_DATE := u start_s;
     CUSTOM_END_DATE := u end_s |}.

End Ex.

(* ================================================================= *)
(** ** Strings: [strip], [split] and containment *)

Section StringFacts.

Lemma str_eqb_eq (a b : str) : str_eqb a b = true <-> a = b.
Proof.
  revert b; induction a as [|x a IH]; destruct b as [|y b]; simpl;
    split; intro H; try reflexivity; try discriminate.
  - apply andb_true_iff in H as [Hx Hab].
    apply N.eqb_eq in Hx. apply IH in Hab. congruence.
  - injection H as -> ->. rewrite N.eqb_refl. simpl. now apply IH.
Qed.

Lemma str_eqb_refl (a : str) : str_eqb a a = true.
Proof. now apply str_eqb_eq. Qed.

Lemma str_eqb_neq (a b : str) : str_eqb a b = false <-> a <> b.
Proof.
  split.
  - intros H E. apply str_eqb_eq in E. congruence.
  - intros H. destruct (str_eqb a b) eqn:E; [|reflexivity].
    apply str_eqb_eq in E. contradiction.
Qed.

Lemma contains_nil (s : str) : contains [] s = true.
Proof. destruct s; reflexivity. Qed.

Lemma is_space_NL : is_space NL = true.
Proof. reflexivity. Qed.

Lemma split_not_nil (sep : char) (s : str) : split sep s <> [].
Proof.
  induction s as [|c s IH]; simpl; [discriminate|].
  destruct (N.eqb c sep); [discriminate|].
  destruct (split sep s); discriminate.
Qed.

Lemma split_cons (sep c : char) (s : str) :
  exists l0 rest,
    split sep s = l0 :: rest /\
    split sep (c :: s) =
      if N.eqb c sep then [] :: l0 :: rest else (c :: l0) :: rest.
Proof.
  destruct (split sep s) as [|l0 rest] eqn:E.
  - now apply split_not_nil in E.
  - exists l0, rest. simpl. rewrite E. split; reflexivity.
Qed.

(** [rstrip] of [c :: s] is a function of [c] and [rstrip s]. *)
Lemma rstrip_cons_congr (c : char) (s t : str) :
  rstrip s = rstrip t -> rstrip (c :: s) = rstrip (c :: t).
Proof. simpl. now intros ->. Qed.

Lemma rstrip_eq_nil_cons (c : char) (s : str) :
  rstrip s = [] -> rstrip (c :: s) = if is_space c then [] else [c].
Proof. simpl. now intros ->. Qed.

Lemma strip_space_cons (c : char) (s : str) :
  is_space c = true -> strip (c :: s) = strip s.
Proof.
  intros Hc. unfold strip. simpl.
  destruct (rstrip s) as [|r0 r] eqn:E.
  - now rewrite Hc.
  - simpl. now rewrite Hc.
Qed.

Lemma strip_not_nil_rstrip (s : str) : strip s <> [] -> rstrip s <> [].
Proof. unfold strip. intros H E. now rewrite E in H. Qed.

(** Stripping the left end of the text only removes leading blank lines
    and leading blanks of the first line that is not blank. *)
Lemma lstrip_keeps_lines (s l : str) :
  In l (split NL s) -> strip l <> [] ->
  exists l', In l' (split NL (lstrip s)) /\ strip l' = strip l.
Proof.
  revert l. induction s as [|c s IH]; intros l Hin Hne.
  - now exists l.
  - simpl lstrip. destruct (is_space c) eqn:Hc.
    + destruct (split_cons NL c s) as (l0 & rest & E0 & E1).
      rewrite E1 in Hin.
      destruct (N.eqb c NL).
      * destruct Hin as [<-|Hin]; [now elim Hne|].
        apply IH; [now rewrite E0|assumption].
      * destruct Hin as [<-|Hin].
        -- rewrite (strip_space_cons _ _ Hc) in Hne |- *.
           apply IH; [rewrite E0; now left|assumption].
        -- apply IH; [rewrite E0; now right|assumption].
    + now exists l.
Qed.

(** Stripping the right end of the text only removes trailing blank lines
    and trailing blanks of the last line that is not blank. *)
Lemma rstrip_lines (s : str) :
  exists n,
    map rstrip (split NL s) =
    map rstrip (split NL (rstrip s)) ++ repeat [] n.
Proof.
  induction s as [|c s (n & IH)].
  - now exists 0%nat.
  - destruct (split_cons NL c s) as (l0 & rest & E0 & E1).
    rewrite E1. rewrite E0 in IH.
    destruct (rstrip s) as [|r0 r] eqn:R.
    + rewrite (rstrip_eq_nil_cons c _ R).
      simpl in IH. injection IH as Hl0 Hrest.
      destruct (is_space c) eqn:Hc.
      * destruct (N.eqb c NL).
        -- exists (S n). simpl. now rewrite Hl0, Hrest.
        -- exists n. cbn [map split app].
           rewrite (rstrip_eq_nil_cons c _ Hl0), Hc, Hrest. reflexivity.
      * assert (Hne : N.eqb c NL = false).
        { destruct (N.eqb c NL) eqn:E; [|reflexivity].
          apply N.eqb_eq in E. subst c. discriminate. }
        rewrite Hne. exists n. cbn [split]. rewrite Hne.
        cbn [map app]. rewrite (rstrip_eq_nil_cons c _ Hl0), Hc, Hrest.
        simpl. now rewrite Hc.
    + assert (Hr : rstrip (c :: s) = c :: r0 :: r) by (simpl; now rewrite R).
      rewrite Hr.
      destruct (split_cons NL c (r0 :: r)) as (l0' & rest' & E0' & E1').
      rewrite E1'. rewrite E0' in IH.
      simpl in IH. injection IH as Hl0 Hrest.
      exists n. destruct (N.eqb c NL).
      * cbn [map app]. now rewrite Hl0, Hrest.
      * cbn [map app].
        rewrite (rstrip_cons_congr c _ _ Hl0), Hrest. reflexivity.
Qed.

Lemma rstrip_keeps_lines (s l : str) :
  In l (split NL s) -> strip l <> [] ->
  exists l', In l' (split NL (rstrip s)) /\ strip l' = strip l.
Proof.
  intros Hin Hne.
  destruct (rstrip_lines s) as (n & E).
  assert (H : In (rstrip l) (map rstrip (split NL s))) by now apply in_map.
  rewrite E in H. apply in_app_or in H as [H|H].
  - apply in_map_iff in H as (l' & Hl' & Hin').
    exists l'. split; [assumption|]. unfold strip. now rewrite Hl'.
  - apply repeat_spec in H. now apply strip_not_nil_rstrip in Hne.
Qed.

(** Every line of the file that is not blank is, up to [strip], one of the
    lines the loaders iterate over. *)
Lemma source_lines_complete (content l : str) :
  In l (split NL content) -> strip l <> [] ->
  In (strip l) (source_lines content).
Proof.
  intros Hin Hne.
  destruct (rstrip_keeps_lines _ _ Hin Hne) as (l1 & Hin1 & E1).
  rewrite <- E1 in Hne.
  destruct (lstrip_keeps_lines _ _ Hin1 Hne) as (l2 & Hin2 & E2).
  unfold source_lines, strip at 2.
  rewrite <- E1, <- E2. now apply in_map.
Qed.

End StringFacts.

(* ================================================================= *)
(** ** The keyword loaders *)

Section Loaders.

Lemma load_prefixed_complete (prefix : char) (content l r : str) :
  In l (split NL content) -> strip l = prefix :: r ->
  In r (load_prefixed prefix (FileContent content)).
Proof.
  intros Hin E.
  assert (Hne : strip l <> []) by (rewrite E; discriminate).
  pose proof (source_lines_complete _ _ Hin Hne) as Hsrc.
  unfold load_prefixed. change r with (slice_from1 (prefix :: r)).
  apply in_map. apply filter_In. rewrite <- E. split.
  - exact Hsrc.
  - rewrite E. simpl. now rewrite N.eqb_refl.
Qed.

Lemma load_prefixed_sound (prefix : char) (content w : str) :
  In w (load_prefixed prefix (FileContent content)) ->
  In (prefix :: w) (source_lines content).
Proof.
  unfold load_prefixed. intros H.
  apply in_map_iff in H as (line & <- & H).
  apply filter_In in H as [H Hp].
  destruct line as [|c line]; [discriminate|].
  simpl in Hp. apply andb_true_iff in Hp as [Hp _].
  apply N.eqb_eq in Hp. now subst c.
Qed.

End Loaders.

(** C3 (as amended).  For every line of the keyword file whose stripped form
    is [!] followed by [r], the word added to [filter_words] is [r] itself:
    the line is stripped before the prefix is removed and the remainder is
    not stripped again.  Likewise [+] and [must_words]. *)
Theorem load_prefixed_keeps_remainder (content l r : str) :
  In l (split NL content) ->
  (strip l = BANG :: r -> In r (load_filter_words (FileContent content))) /\
  (strip l = PLUS :: r -> In r (load_must_words (FileContent content))).
Proof.
  intros Hin. split; intros E.
  - now apply load_prefixed_complete with (l := l).
  - now apply load_prefixed_complete with (l := l).
Qed.

Lemma load_prefixed_keeps_remainder_witness :
  In (u "! foo ") (split NL Ex.words_file) /\
  In (u " foo") (load_filter_words (FileContent Ex.words_file)) /\
  In (u "bar") (load_must_words (FileContent Ex.words_file)).
Proof.
  split; [|split].
  - vm_compute. tauto.
  - apply (load_prefixed_keeps_remainder Ex.words_file (u "! foo ") (u " foo"));
      [vm_compute; tauto | reflexivity].
  - apply (load_prefixed_keeps_remainder Ex.words_file (u "+bar") (u "bar"));
      [vm_compute; tauto | reflexivity].
Defined.

(** C3 as worded fails: the line "! foo " puts " foo" in [filter_words], not
    the trimmed remainder "foo". *)
Lemma remainder_not_trimmed :
  In (u "! foo ") (split NL Ex.words_file) /\
  strip (u "! foo ") = BANG :: u " foo" /\
  strip (u " foo") = u "foo" /\
  load_filter_words (FileContent Ex.words_file) = [u " foo"] /\
  ~ In (strip (u " foo")) (load_filter_words (FileContent Ex.words_file)).
Proof.
  repeat split; try (vm_compute; tauto).
  vm_compute. intros [H|[]]. discriminate H.
Qed.

(* ================================================================= *)
(** ** The classifier  ([match_keywords]) *)

Section Classifier.

Variable lower : str -> str.
Variable self : TrendAnalyzer.

Lemma match_keywords_empty : match_keywords lower self [] = ([], false).
Proof. reflexivity. Qed.

(** The filter scan, for a title that is not empty. *)
Lemma match_keywords_filtered (title : str) :
  title <> [] ->
  existsb (occurs_in lower title) self.(filter_words) = true ->
  match_keywords lower self title = ([], true).
Proof.
  intros Hne Hex. unfold match_keywords.
  destruct title as [|c title]; [contradiction|]. simpl truthy. simpl negb.
  unfold occurs_in in Hex. cbv iota. now rewrite Hex.
Qed.

(** The only outcome with [is_filtered] set carries no keyword. *)
Lemma match_keywords_flag (title : str) :
  snd (match_keywords lower self title) = true ->
  fst (match_keywords lower self title) = [].
Proof.
  unfold match_keywords.
  destruct (negb (truthy title)); [discriminate|].
  destruct (existsb _ _); [reflexivity|].
  destruct (_ && _); discriminate.
Qed.

Lemma filter_length_lt {A} (f : A -> bool) (l : list A) (x : A) :
  In x l -> f x = false -> (length (filter f l) < length l)%nat.
Proof.
  induction l as [|y l IH]; intros Hin Hx; [contradiction|].
  destruct Hin as [->|Hin].
  - simpl. rewrite Hx. pose proof (filter_length_le f l). lia.
  - simpl. specialize (IH Hin Hx). destruct (f y); simpl; lia.
Qed.

(** The must-word test. *)
Lemma match_keywords_rejected (title w : str) :
  existsb (occurs_in lower title) self.(filter_words) = false ->
  In w self.(must_words) -> occurs_in lower title w = false ->
  match_keywords lower self title = ([], false).
Proof.
  intros Hf Hin Hw. unfold match_keywords.
  destruct (negb (truthy title)); [reflexivity|].
  unfold occurs_in in Hf. rewrite Hf.
  assert (Ht : truthy self.(must_words) = true).
  { destruct self.(must_words); [contradiction|reflexivity]. }
  rewrite Ht. simpl andb.
  pose proof (filter_length_lt (occurs_in lower title) _ _ Hin Hw) as Hlt.
  unfold occurs_in in Hlt. unfold len.
  assert (Hb : (Z.of_nat (length (filter (fun must_word =>
                  contains (lower must_word) (lower title))
                  self.(must_words)))
                <? Z.of_nat (length self.(must_words))) = true)
    by (apply Z.ltb_lt; lia).
  now rewrite Hb.
Qed.

Lemma filter_head_find {A} (f : A -> bool) (l : list A) (x : A) (xs : list A) :
  filter f l = x :: xs -> find f l = Some x.
Proof.
  induction l as [|y l IH]; simpl; [discriminate|].
  destruct (f y); [now intros [= ->]|exact IH].
Qed.

(** A first matched keyword is the first frequency word found in the
    title, and the headline is not filtered. *)
Lemma match_keywords_head (title k : str) (ks : list str) :
  fst (match_keywords lower self title) = k :: ks ->
  match_keywords lower self title = (k :: ks, false) /\
  find (occurs_in lower title) self.(frequency_words) = Some k.
Proof.
  unfold match_keywords.
  destruct (negb (truthy title)); [discriminate|].
  destruct (existsb _ _); [discriminate|].
  destruct (_ && _); [discriminate|].
  simpl fst. intros E. split.
  - now rewrite E.
  - now apply filter_head_find with (xs := ks).
Qed.

End Classifier.

(** C4 (as amended).  For every title that is not empty and every rule set,
    if some filter word occurs in the title (lower-cased substring), the
    result is [([], true)], whatever the must words and the frequency words
    are. *)
Theorem filter_word_takes_precedence
        (lower : str -> str) (self : TrendAnalyzer) (title w : str) :
  title <> [] ->
  In w self.(filter_words) ->
  occurs_in lower title w = true ->
  match_keywords lower self title = ([], true).
Proof.
  intros Hne Hin Hw. apply match_keywords_filtered; [assumption|].
  apply existsb_exists. now exists w.
Qed.

Lemma filter_word_takes_precedence_witness :
  match_keywords ascii_lower
    (Ex.analyzer [u "AI"] [[24191; 21578]%N] [u "zzz"] [])
    ([24191; 21578; 32]%N ++ u "AI") = ([], true).
Proof.
  apply (@filter_word_takes_precedence ascii_lower _ _ [24191; 21578]%N).
  - discriminate.
  - simpl. tauto.
  - vm_compute. reflexivity.
Defined.

(** C4 as worded fails on the empty title: with the empty filter word (a
    line "!" of the keyword file) the filter word occurs in the empty title,
    and the test for an empty title answers first. *)
Lemma empty_title_not_filtered :
  In [] (filter_words (Ex.analyzer [u "AI"] [[]] [] [])) /\
  occurs_in ascii_lower [] [] = true /\
  match_keywords ascii_lower (Ex.analyzer [u "AI"] [[]] [] []) []
    = ([], false) /\
  match_keywords ascii_lower (Ex.analyzer [u "AI"] [[]] [] []) []
    <> ([], true).
Proof.
  repeat split; try (vm_compute; tauto). discriminate.
Qed.

(** C10.  A line of the keyword file that is [!] alone, or [!] with blanks
    around it, puts the empty string in [filter_words]; then every title
    that is not empty is classified [([], true)], and the empty title is
    classified [([], false)] by the test that comes before the filter
    scan. *)
Theorem bare_bang_filters_every_title
        (lower : str -> str) (self : TrendAnalyzer) (content l : str) :
  lower [] = [] ->
  In l (split NL content) -> strip l = [BANG] ->
  self.(filter_words) = load_filter_words (FileContent content) ->
  In [] self.(filter_words) /\
  (forall title, title <> [] -> match_keywords lower self title = ([], true)) /\
  match_keywords lower self [] = ([], false).
Proof.
  intros Hlow Hin Hl Hfw.
  assert (H0 : In [] self.(filter_words)).
  { rewrite Hfw. now apply load_prefixed_complete with (l := l). }
  split; [exact H0|]. split; [|reflexivity].
  intros title Hne. apply match_keywords_filtered; [assumption|].
  apply existsb_exists. exists []. split; [exact H0|].
  unfold occurs_in. rewrite Hlow. apply contains_nil.
Qed.

Lemma bare_bang_filters_every_title_witness :
  let self := Ex.analyzer [u "AI"; u "stock"]
                (load_filter_words (FileContent Ex.bare_bang_file)) [] [] in
  In [] self.(filter_words) /\
  (forall title, title <> [] ->
                 match_keywords ascii_lower self title = ([], true)) /\
  match_keywords ascii_lower self [] = ([], false).
Proof.
  apply (@bare_bang_filters_every_title ascii_lower _ Ex.bare_bang_file
           (u "!  ")).
  - reflexivity.
  - vm_compute. tauto.
  - reflexivity.
  - reflexivity.
Defined.

(* ================================================================= *)
(** ** Dictionaries *)

Section DictFacts.

Context {V : Type}.
Implicit Types (d : dict V) (k : str) (f : V -> V).

Lemma dict_get_update_same d k f dflt :
  dict_get k (dict_update k f dflt d) = Some (f (get (dict_get k d) dflt)).
Proof.
  induction d as [|[k' v] d IH]; simpl.
  - now rewrite str_eqb_refl.
  - destruct (str_eqb k k') eqn:E; simpl; rewrite E; [reflexivity|exact IH].
Qed.

Lemma dict_get_update_other d k k' f dflt :
  k' <> k -> dict_get k' (dict_update k f dflt d) = dict_get k' d.
Proof.
  intros Hne. induction d as [|[k0 v] d IH]; simpl.
  - apply str_eqb_neq in Hne. now rewrite Hne.
  - destruct (str_eqb k k0) eqn:E; simpl.
    + apply str_eqb_eq in E. subst k0.
      apply str_eqb_neq in Hne. now rewrite Hne.
    + now rewrite IH.
Qed.

Lemma keys_dict_update d k f dflt :
  keys (dict_update k f dflt d) = add_key (keys d) k.
Proof.
  unfold add_key, keys. induction d as [|[k' v] d IH]; simpl.
  - reflexivity.
  - destruct (str_eqb k k') eqn:E; simpl; [reflexivity|].
    rewrite IH. now destruct (existsb (str_eqb k) (map fst d)).
Qed.

Lemma add_key_NoDup (ks : list str) k : NoDup ks -> NoDup (add_key ks k).
Proof.
  intros H. unfold add_key. destruct (existsb (str_eqb k) ks) eqn:E.
  - exact H.
  - apply NoDup_rev in H. rewrite <- (rev_involutive (ks ++ [k])).
    apply NoDup_rev. rewrite rev_app_distr. simpl. constructor; [|exact H].
    intros Hin. apply in_rev in Hin.
    assert (Hex : existsb (str_eqb k) ks = true).
    { apply existsb_exists. exists k. split; [exact Hin|apply str_eqb_refl]. }
    congruence.
Qed.

Lemma fold_add_key_NoDup (l ks : list str) :
  NoDup ks -> NoDup (fold_left add_key l ks).
Proof.
  revert ks. induction l as [|k l IH]; intros ks H; simpl; [exact H|].
  apply IH. now apply add_key_NoDup.
Qed.

(** In a list of pairs with distinct keys a key has one value. *)
Lemma NoDup_keys_functional {B} (l : list (str * B)) k (a b : B) :
  NoDup (map fst l) -> In (k, a) l -> In (k, b) l -> a = b.
Proof.
  induction l as [|[k' v] l IH]; intros Hnd Ha Hb; [contradiction|].
  simpl in Hnd. apply NoDup_cons_iff in Hnd as [Hnin Hnd].
  destruct Ha as [Ha|Ha], Hb as [Hb|Hb].
  - congruence.
  - injection Ha as -> ->. elim Hnin.
    change k with (fst (k, b)). now apply in_map.
  - injection Hb as -> ->. elim Hnin.
    change k with (fst (k, a)). now apply in_map.
  - now apply IH.
Qed.

End DictFacts.

(* ================================================================= *)
(** ** The aggregation loop  ([analyze_data]) *)

Section Aggregation.

Variable lower : str -> str.
Variable self : TrendAnalyzer.

Local Abbreviation classify := (match_keywords lower self).
Local Abbreviation step := (analyze_item lower self).

(** The three outcomes of one iteration. *)
Lemma analyze_item_cases (acc : Acc) (item : Item) :
  let title := get item.(title) [] in
  (snd (classify title) = true /\
   step acc item =
     {| acc_keyword_matches := acc.(acc_keyword_matches);
        acc_filtered_count := acc.(acc_filtered_count) + 1;
        acc_matched_count := acc.(acc_matched_count) |})
  \/ (classify title = ([], false) /\ step acc item = acc)
  \/ (exists k ks,
        classify title = (k :: ks, false) /\
        step acc item =
          {| acc_keyword_matches :=
               dict_update k (append_match item title (k :: ks)) []
                 acc.(acc_keyword_matches);
             acc_filtered_count := acc.(acc_filtered_count);
             acc_matched_count := acc.(acc_matched_count) + 1 |}).
Proof.
  intros title. unfold analyze_item. fold title.
  destruct (classify title) as [mk [|]] eqn:E.
  - left. split; reflexivity.
  - right. destruct mk as [|k ks].
    + left. split; reflexivity.
    + right. exists k, ks. split; reflexivity.
Qed.

Lemma analyze_item_keyword_matches (acc : Acc) (item : Item) :
  acc_keyword_matches (step acc item) =
  match primary_keyword lower self item with
  | None => acc.(acc_keyword_matches)
  | Some k =>
      dict_update k
        (append_match item (get item.(title) [])
           (fst (classify (get item.(title) [])))) []
        acc.(acc_keyword_matches)
  end.
Proof.
  unfold primary_keyword.
  destruct (analyze_item_cases acc item) as [[Hf ->]|[[Hc ->]|(k & ks & Hc & ->)]].
  - apply match_keywords_flag in Hf. now rewrite Hf.
  - now rewrite Hc.
  - now rewrite Hc.
Qed.

(** The keys of [keyword_matches] are the primary keywords in the order in
    which the headlines first show them. *)
Lemma analyze_keys (data : list Item) (acc : Acc) :
  keys (acc_keyword_matches (fold_left step data acc)) =
  fold_left add_key (primary_keywords lower self data)
            (keys acc.(acc_keyword_matches)).
Proof.
  revert acc. induction data as [|item data IH]; intros acc; [reflexivity|].
  simpl fold_left. rewrite IH, analyze_item_keyword_matches.
  unfold primary_keywords. simpl flat_map.
  destruct (primary_keyword lower self item) as [k|]; simpl.
  - now rewrite keys_dict_update.
  - reflexivity.
Qed.

(** The list kept for a keyword holds the matches of the headlines with
    that primary keyword, in the order of [all_data]. *)
Lemma analyze_group (k : str) (data : list Item) (acc : Acc) :
  get (dict_get k (acc_keyword_matches (fold_left step data acc))) [] =
  get (dict_get k acc.(acc_keyword_matches)) [] ++ matches_of lower self k data.
Proof.
  revert acc. induction data as [|item data IH]; intros acc.
  - simpl. now rewrite app_nil_r.
  - simpl fold_left. rewrite IH. unfold matches_of at 2. simpl flat_map.
    fold (matches_of lower self k data).
    destruct (analyze_item_cases acc item)
      as [[Hf ->]|[[Hc ->]|(p & ks & Hc & ->)]]; simpl acc_keyword_matches.
    + apply match_keywords_flag in Hf. now rewrite Hf.
    + now rewrite Hc.
    + rewrite Hc. simpl fst. destruct (str_eqb p k) eqn:E.
      * apply str_eqb_eq in E. subst p.
        rewrite dict_get_update_same. simpl get at 1.
        unfold append_match. rewrite str_eqb_refl.
        now rewrite <- app_assoc.
      * rewrite dict_get_update_other; [now rewrite E|].
        apply str_eqb_neq in E. congruence.
Qed.

(** A headline that is neither filtered nor matched leaves the loop
    variables as they are. *)
Lemma analyze_loop_skip (pre post : list Item) (item : Item) :
  classify (get item.(title) []) = ([], false) ->
  analyze_loop lower self (pre ++ item :: post) =
  analyze_loop lower self (pre ++ post).
Proof.
  intros Hc. unfold analyze_loop. rewrite !fold_left_app. simpl fold_left.
  destruct (analyze_item_cases (fold_left step pre (acc0)) item)
    as [[Hf _]|[[_ ->]|(k & ks & Hk & _)]].
  - rewrite Hc in Hf. discriminate.
  - reflexivity.
  - rewrite Hc in Hk. discriminate.
Qed.

End Aggregation.

(** The analysis reads the three word lists and [all_data] only. *)
Lemma analyze_loop_set_all_data lower self (d data : list Item) :
  analyze_loop lower (set_all_data self d) data = analyze_loop lower self data.
Proof. reflexivity. Qed.

(** C5.  For a title in which no filter word occurs, when some must word
    does not occur in it the result is [([], false)], whatever frequency
    words occur; and a headline with such a title changes nothing in the
    analysis but [total_items]: the groups, the ranking, [filtered_count]
    and [matched_count] are those of the same data without it. *)
Theorem missing_must_word_rejects
        (lower : str -> str) (self : TrendAnalyzer) (t w : str) :
  existsb (occurs_in lower t) self.(filter_words) = false ->
  In w self.(must_words) ->
  occurs_in lower t w = false ->
  match_keywords lower self t = ([], false) /\
  forall (item : Item) (pre post : list Item) (now : datetime),
    get item.(title) [] = t ->
    let r := analyze_data lower (set_all_data self (pre ++ item :: post)) now in
    let r' := analyze_data lower (set_all_data self (pre ++ post)) now in
    keyword_matches r = keyword_matches r' /\
    keyword_popularity r = keyword_popularity r' /\
    sorted_keywords r = sorted_keywords r' /\
    filtered_count r = filtered_count r' /\
    matched_count r = matched_count r' /\
    total_items r = total_items r' + 1.
Proof.
  intros Hf Hin Hw.
  pose proof (match_keywords_rejected lower self t w Hf Hin Hw) as Hc.
  split; [exact Hc|].
  intros item pre post now Ht r r'. subst r r'. unfold analyze_data.
  cbn [all_data set_all_data keyword_matches keyword_popularity
       sorted_keywords filtered_count matched_count total_items].
  rewrite !analyze_loop_set_all_data.
  rewrite (analyze_loop_skip lower self pre post item) by now rewrite Ht.
  repeat split. unfold len. rewrite !length_app. simpl length. lia.
Qed.

Lemma missing_must_word_rejects_witness :
  let self := Ex.analyzer [[32929; 24066]%N]
                [[24191; 21578]%N]
                [[32929; 24066]%N; [19979; 36300]%N] [] in
  let t := [32929; 24066; 19978; 28072]%N in
  match_keywords ascii_lower self t = ([], false) /\
  forall (item : Item) (pre post : list Item) (now : datetime),
    get item.(title) [] = t ->
    let r := analyze_data ascii_lower
               (set_all_data self (pre ++ item :: post)) now in
    let r' := analyze_data ascii_lower (set_all_data self (pre ++ post)) now in
    keyword_matches r = keyword_matches r' /\
    keyword_popularity r = keyword_popularity r' /\
    sorted_keywords r = sorted_keywords r' /\
    filtered_count r = filtered_count r' /\
    matched_count r = matched_count r' /\
    total_items r = total_items r' + 1.
Proof.
  apply (@missing_must_word_rejects ascii_lower _ _ [19979; 36300]%N).
  - reflexivity.
  - simpl. tauto.
  - reflexivity.
Defined.

(** C8.  When the classifier returns a list of keywords that is not empty,
    its first element is the first word of [frequency_words], in list order,
    that occurs in the title; the iteration appends to the list of that
    keyword the match of the headline (its title, platform name, rank with
    default 999, url and timestamp with default "", and all the matched
    keywords), leaves the list of every other keyword as it is, and counts
    the headline as matched. *)
Theorem primary_keyword_is_first_hit
        (lower : str -> str) (self : TrendAnalyzer)
        (item : Item) (k : str) (ks : list str) (acc : Acc) :
  let t := get item.(title) [] in
  fst (match_keywords lower self t) = k :: ks ->
  find (occurs_in lower t) self.(frequency_words) = Some k /\
  primary_keyword lower self item = Some k /\
  let acc' := analyze_item lower self acc item in
  dict_get k acc'.(acc_keyword_matches) =
    Some (get (dict_get k acc.(acc_keyword_matches)) []
            ++ [{| m_title := t;
                   m_platform := item.(platform_name);
                   m_rank := get item.(rank) 999;
                   m_url := get item.(url) [];
                   m_timestamp := get item.(timestamp) [];
                   all_matched_keywords := k :: ks |}]) /\
  (forall k', k' <> k ->
     dict_get k' acc'.(acc_keyword_matches) =
     dict_get k' acc.(acc_keyword_matches)) /\
  acc'.(acc_matched_count) = acc.(acc_matched_count) + 1 /\
  acc'.(acc_filtered_count) = acc.(acc_filtered_count).
Proof.
  intros t. subst t. intros H.
  destruct (match_keywords_head lower self _ H) as [Hc Hfind].
  split; [exact Hfind|]. split.
  { unfold primary_keyword. now rewrite H. }
  intros acc'. subst acc'.
  destruct (analyze_item_cases lower self acc item)
    as [[Hf _]|[[Hn _]|(p & ps & Hp & ->)]].
  - rewrite Hc in Hf. discriminate.
  - rewrite Hc in Hn. discriminate.
  - rewrite Hc in Hp. injection Hp as <- <-.
    cbn [acc_keyword_matches acc_matched_count acc_filtered_count].
    split; [now rewrite dict_get_update_same|].
    split; [|split; reflexivity].
    intros k' Hne. now apply dict_get_update_other.
Qed.

Lemma primary_keyword_is_first_hit_witness :
  let self := Ex.analyzer [u "stock"; u "AI"; u "market"] [] [] [] in
  let item := Ex.headline "AI moves the stock market" 4 "X" in
  let t := u "AI moves the stock market" in
  find (occurs_in ascii_lower t) self.(frequency_words) = Some (u "stock") /\
  primary_keyword ascii_lower self item = Some (u "stock") /\
  let acc' := analyze_item ascii_lower self (acc0) item in
  dict_get (u "stock") acc'.(acc_keyword_matches) =
    Some ([] ++ [{| m_title := u "AI moves the stock market";
                    m_platform := u "X";
                    m_rank := 4;
                    m_url := [];
                    m_timestamp := [];
                    all_matched_keywords :=
                      [u "stock"; u "AI"; u "market"] |}]) /\
  (forall k', k' <> u "stock" ->
     dict_get k' acc'.(acc_keyword_matches) = None) /\
  acc'.(acc_matched_count) = 0 + 1 /\
  acc'.(acc_filtered_count) = 0.
Proof.
  apply (@primary_keyword_is_first_hit ascii_lower
           (Ex.analyzer [u "stock"; u "AI"; u "market"] [] [] [])
           (Ex.headline "AI moves the stock market" 4 "X")
           (u "stock") [u "AI"; u "market"] acc0).
  reflexivity.
Defined.

(** C9.  Running the analysis twice, the second time on the analyzer as the
    first run left it, gives the same result in every entry except
    [analysis_time]; the analysis leaves the word lists and the collected
    data as they were. *)
Theorem analysis_is_repeatable
        (lower : str -> str) (self : TrendAnalyzer) (now1 now2 : datetime) :
  let '(r1, self1) := run_analysis lower self now1 in
  let '(r2, self2) := run_analysis lower self1 now2 in
  r2 = set_analysis_time r1 (analysis_time r2) /\
  all_data self2 = all_data self /\
  frequency_words self2 = frequency_words self /\
  filter_words self2 = filter_words self /\
  must_words self2 = must_words self.
Proof.
  unfold run_analysis. repeat split.
Qed.

(* ================================================================= *)
(** ** [sorted]: permutation, order and stability *)

Section Sorting.

Context {A : Type}.
Variable key : A -> Z.

Local Abbreviation key_is := (key_is key).

Lemma insert_by_perm (x : A) (l : list A) :
  Permutation (insert_by key x l) (x :: l).
Proof.
  induction l as [|y l IH]; simpl; [reflexivity|].
  destruct (key y <? key x); [|reflexivity].
  rewrite IH. apply perm_swap.
Qed.

Lemma sort_asc_perm (l : list A) : Permutation (sort_asc key l) l.
Proof.
  induction l as [|x l IH]; simpl; [reflexivity|].
  rewrite insert_by_perm. now apply perm_skip.
Qed.

Lemma sorted_perm (reverse : bool) (l : list A) :
  Permutation (sorted key reverse l) l.
Proof.
  unfold sorted. destruct reverse.
  - rewrite <- Permutation_rev, sort_asc_perm. symmetry.
    apply Permutation_rev.
  - apply sort_asc_perm.
Qed.

Lemma sorted_length (reverse : bool) (l : list A) :
  len (sorted key reverse l) = len l.
Proof. unfold len. now rewrite (Permutation_length (sorted_perm reverse l)). Qed.

(** Insertion goes past smaller keys only, so it keeps the order among
    the elements of any one key. *)
Lemma insert_by_stable (c : Z) (x : A) (l : list A) :
  filter (key_is c) (insert_by key x l) =
  if key_is c x then x :: filter (key_is c) l else filter (key_is c) l.
Proof.
  unfold key_is. induction l as [|y l IH]; simpl; [reflexivity|].
  destruct (key y <? key x) eqn:Hlt; simpl.
  - rewrite IH. destruct (key x =? c) eqn:Hx, (key y =? c) eqn:Hy;
      try reflexivity.
    apply Z.eqb_eq in Hx, Hy. apply Z.ltb_lt in Hlt. lia.
  - reflexivity.
Qed.

Lemma sort_asc_stable (c : Z) (l : list A) :
  filter (key_is c) (sort_asc key l) = filter (key_is c) l.
Proof.
  induction l as [|x l IH]; simpl; [reflexivity|].
  rewrite insert_by_stable, IH. reflexivity.
Qed.

(** Stability, in both directions of the sort: the elements of one key
    keep the order they had in the argument. *)
Lemma sorted_stable (reverse : bool) (c : Z) (l : list A) :
  filter (key_is c) (sorted key reverse l) = filter (key_is c) l.
Proof.
  unfold sorted. destruct reverse.
  - now rewrite filter_rev, sort_asc_stable, filter_rev, rev_involutive.
  - apply sort_asc_stable.
Qed.

Lemma insert_by_sorted (x : A) (l : list A) :
  StronglySorted (fun a b => key a <= key b) l ->
  StronglySorted (fun a b => key a <= key b) (insert_by key x l).
Proof.
  induction 1 as [|y l Hs IH Hy]; simpl.
  - constructor; constructor.
  - destruct (key y <? key x) eqn:Hlt.
    + apply Z.ltb_lt in Hlt. constructor; [exact IH|].
      rewrite insert_by_perm. constructor; [lia|exact Hy].
    + apply Z.ltb_ge in Hlt. constructor; [now constructor|].
      constructor; [exact Hlt|].
      eapply Forall_impl; [|exact Hy]. simpl. intros a Ha. lia.
Qed.

Lemma sort_asc_sorted (l : list A) :
  StronglySorted (fun a b => key a <= key b) (sort_asc key l).
Proof.
  induction l as [|x l IH]; simpl; [constructor|].
  now apply insert_by_sorted.
Qed.

Lemma StronglySorted_snoc (R : A -> A -> Prop) (l : list A) (x : A) :
  StronglySorted R l -> Forall (fun y => R y x) l ->
  StronglySorted R (l ++ [x]).
Proof.
  induction 1 as [|y l Hs IH Hy]; intros Hx; simpl.
  - constructor; constructor.
  - apply Forall_cons_iff in Hx as [Hyx Hx]. constructor; [now apply IH|].
    apply Forall_app. split; [exact Hy|]. constructor; [exact Hyx|constructor].
Qed.

Lemma StronglySorted_rev (R : A -> A -> Prop) (l : list A) :
  StronglySorted R l -> StronglySorted (fun a b => R b a) (rev l).
Proof.
  induction 1 as [|y l Hs IH Hy]; simpl; [constructor|].
  apply StronglySorted_snoc; [exact IH|]. now apply Forall_rev.
Qed.

(** [sorted(..., reverse=True)] is in descending key order. *)
Lemma sorted_reverse_descending (l : list A) :
  StronglySorted (fun a b => key a >= key b) (sorted key true l).
Proof.
  unfold sorted.
  pose proof (StronglySorted_rev (sort_asc_sorted (rev l))) as H.
  revert H. generalize (rev (sort_asc key (rev l))). intros l' H.
  induction H as [|y l' Hs IH Hy]; constructor; [exact IH|].
  eapply Forall_impl; [|exact Hy]. simpl. intros a Ha. lia.
Qed.

Lemma sorted_ascending (l : list A) :
  StronglySorted (fun a b => key a <= key b) (sorted key false l).
Proof. apply sort_asc_sorted. Qed.

End Sorting.

(* ================================================================= *)
(** ** Order of first appearance *)

Section Precedes.

Context {A : Type}.

Lemma precedes_filter_intro (f : A -> bool) (x y : A) (l : list A) :
  f x = true -> precedes x y l -> precedes x y (filter f l).
Proof.
  intros Hx (l1 & l2 & -> & Hn).
  exists (filter f l1), (filter f l2). split.
  - rewrite filter_app. simpl. now rewrite Hx.
  - intros Hin. apply filter_In in Hin. tauto.
Qed.

Lemma precedes_filter_elim (f : A -> bool) (x y : A) (l : list A) :
  f y = true -> precedes x y (filter f l) -> precedes x y l.
Proof.
  intros Hy. induction l as [|h t IH]; intros (a & b & E & Hn).
  - destruct a; discriminate.
  - simpl in E. destruct (f h) eqn:Hh.
    + destruct a as [|h' a].
      * injection E as -> E. exists [], t. split; [reflexivity|intros []].
      * injection E as <- E.
        destruct IH as (l1 & l2 & -> & Hn1).
        { exists a, b. split; [exact E|]. intros Hin. apply Hn. now right. }
        exists (h :: l1), l2. split; [reflexivity|].
        intros [->|Hin]; [apply Hn; now left|contradiction].
    + destruct IH as (l1 & l2 & -> & Hn1).
      { now exists a, b. }
      exists (h :: l1), l2. split; [reflexivity|].
      intros [->|Hin]; [congruence|contradiction].
Qed.

Lemma precedes_app_r (x y : A) (l l' : list A) :
  precedes x y l -> precedes x y (l ++ l').
Proof.
  intros (l1 & l2 & -> & Hn). exists l1, (l2 ++ l'). split; [|exact Hn].
  now rewrite <- app_assoc.
Qed.

End Precedes.

Section FirstSeen.

Lemma add_key_In (ks : list str) (k k' : str) :
  In k' (add_key ks k) <-> In k' ks \/ k' = k.
Proof.
  unfold add_key. destruct (existsb (str_eqb k) ks) eqn:E.
  - split; [tauto|]. intros [H| ->]; [exact H|].
    apply existsb_exists in E as (z & Hz & Ez).
    apply str_eqb_eq in Ez. now subst z.
  - rewrite in_app_iff. simpl. intuition.
Qed.

Lemma precedes_add_key (x y k : str) (ks : list str) :
  precedes x y ks -> precedes x y (add_key ks k).
Proof.
  intros H. unfold add_key. destruct (existsb (str_eqb k) ks); [exact H|].
  now apply precedes_app_r.
Qed.

Lemma precedes_fold_add_key (x y : str) (l ks : list str) :
  precedes x y ks -> precedes x y (fold_left add_key l ks).
Proof.
  revert ks. induction l as [|k l IH]; intros ks H; simpl; [exact H|].
  apply IH. now apply precedes_add_key.
Qed.

Lemma precedes_add_key_new (x y : str) (ks : list str) :
  ~ In y ks -> precedes x y (add_key ks x).
Proof.
  intros Hn. unfold add_key. destruct (existsb (str_eqb x) ks) eqn:E.
  - apply existsb_exists in E as (z & Hz & Ez).
    apply str_eqb_eq in Ez. subst z.
    apply in_split in Hz as (l1 & l2 & ->).
    exists l1, l2. split; [reflexivity|].
    intros Hin. apply Hn. apply in_or_app. now left.
  - exists ks, []. split; [reflexivity|exact Hn].
Qed.

(** The keys come in the order in which the keywords are first seen. *)
Lemma precedes_first_seen (x y : str) (l ks : list str) :
  ~ In y ks -> precedes x y l -> precedes x y (fold_left add_key l ks).
Proof.
  intros Hn (l1 & l2 & -> & Hn1). revert ks Hn.
  induction l1 as [|h l1 IH]; intros ks Hn; simpl.
  - apply precedes_fold_add_key. now apply precedes_add_key_new.
  - apply IH.
    + intros Hin. apply Hn1. now right.
    + intros Hin. apply add_key_In in Hin as [Hin| ->]; [contradiction|].
      apply Hn1. now left.
Qed.

Context {B : Type}.

Lemma precedes_pairs_of_keys (l : list (str * B)) (k1 k2 : str) (c : B) :
  NoDup (map fst l) -> In (k1, c) l ->
  precedes k1 k2 (map fst l) -> precedes (k1, c) (k2, c) l.
Proof.
  intros Hnd Hin (a & b & E & Hn).
  apply map_eq_app in E as (l1 & l2' & -> & <- & E).
  apply map_eq_cons in E as ([k c'] & l2 & -> & Ek & <-).
  simpl in Ek. subst k.
  assert (c' = c) as ->.
  { eapply NoDup_keys_functional; [exact Hnd| |exact Hin].
    apply in_or_app. right. now left. }
  exists l1, l2. split; [reflexivity|].
  intros H. apply Hn. change k2 with (fst (k2, c)). now apply in_map.
Qed.

Lemma precedes_keys_of_pairs (l : list (str * B)) (k1 k2 : str) (c : B) :
  NoDup (map fst l) -> In (k2, c) l ->
  precedes (k1, c) (k2, c) l -> precedes k1 k2 (map fst l).
Proof.
  intros Hnd Hin (l1 & l2 & -> & Hn).
  exists (map fst l1), (map fst l2). split.
  - now rewrite map_app.
  - intros H. apply in_map_iff in H as ([k c'] & Ek & H).
    simpl in Ek. subst k.
    assert (c' = c) as ->.
    { eapply NoDup_keys_functional; [exact Hnd| |exact Hin].
      apply in_or_app. now left. }
    contradiction.
Qed.

End FirstSeen.

(* ================================================================= *)
(** ** Groups and ranking of [analyze_data] *)

Section Ranking.

Variable lower : str -> str.
Variable self : TrendAnalyzer.
Variable now : datetime.

Local Abbreviation result := (analyze_data lower self now).

Lemma dict_get_map_values {V W} (g : V -> W) (k : str) (d : dict V) :
  dict_get k (map (fun '(k', v) => (k', g v)) d) = option_map g (dict_get k d).
Proof.
  induction d as [|[k' v] d IH]; simpl; [reflexivity|].
  destruct (str_eqb k k'); [reflexivity|exact IH].
Qed.

Lemma keys_map_values {V W} (g : V -> W) (d : dict V) :
  map fst (map (fun '(k', v) => (k', g v)) d) = keys d.
Proof.
  unfold keys. rewrite map_map. apply map_ext. now intros [k v].
Qed.

(** The group of a keyword in the result: the matches of the headlines
    whose primary keyword it is, sorted by rank, equal ranks in the order
    of [all_data]. *)
Lemma keyword_group (k : str) :
  get (dict_get k result.(keyword_matches)) [] =
  sorted m_rank false (matches_of lower self k self.(all_data)).
Proof.
  unfold analyze_data. cbn [keyword_matches].
  rewrite dict_get_map_values.
  pose proof (analyze_group lower self k self.(all_data) (acc0)) as H.
  simpl in H. unfold analyze_loop. rewrite <- H.
  now destruct (dict_get k _).
Qed.

Lemma popularity_keys :
  map fst result.(keyword_popularity) =
  fold_left add_key (primary_keywords lower self self.(all_data)) [].
Proof.
  unfold analyze_data. cbn [keyword_popularity]. unfold items.
  rewrite keys_map_values. unfold analyze_loop.
  now rewrite analyze_keys.
Qed.

Lemma popularity_keys_NoDup : NoDup (map fst result.(keyword_popularity)).
Proof. rewrite popularity_keys. apply fold_add_key_NoDup. constructor. Qed.

Lemma popularity_is_group_size :
  result.(keyword_popularity) =
  map (fun '(k, g) => (k, len g)) result.(keyword_matches).
Proof.
  unfold analyze_data. cbn [keyword_popularity keyword_matches]. unfold items.
  rewrite map_map. apply map_ext. intros [k g].
  now rewrite sorted_length.
Qed.

Lemma ranking_perm :
  Permutation result.(sorted_keywords) result.(keyword_popularity).
Proof.
  unfold analyze_data. cbn [sorted_keywords keyword_popularity].
  unfold items. apply sorted_perm.
Qed.

Lemma ranking_stable (c : Z) :
  filter (key_is snd c) result.(sorted_keywords) =
  filter (key_is snd c) result.(keyword_popularity).
Proof.
  unfold analyze_data. cbn [sorted_keywords keyword_popularity].
  unfold items. apply sorted_stable.
Qed.

Lemma ranking_keys_NoDup : NoDup (map fst result.(sorted_keywords)).
Proof.
  eapply Permutation_NoDup; [|exact popularity_keys_NoDup].
  apply Permutation_map. symmetry. exact ranking_perm.
Qed.

(** Among keywords of one count the ranking keeps the order in which the
    headlines first show them as primary keyword. *)
Lemma ranking_ties (k1 k2 : str) (c : Z) :
  In (k1, c) result.(sorted_keywords) ->
  In (k2, c) result.(sorted_keywords) ->
  precedes k1 k2 (primary_keywords lower self self.(all_data)) ->
  precedes k1 k2 (map fst result.(sorted_keywords)).
Proof.
  intros H1 H2 Hp.
  apply precedes_keys_of_pairs with (c := c);
    [exact ranking_keys_NoDup|exact H2|].
  apply precedes_filter_elim with (f := key_is snd c).
  { unfold key_is. simpl. apply Z.eqb_refl. }
  rewrite ranking_stable.
  apply precedes_filter_intro.
  { unfold key_is. simpl. apply Z.eqb_refl. }
  apply precedes_pairs_of_keys.
  - exact popularity_keys_NoDup.
  - eapply Permutation_in; [exact ranking_perm|exact H1].
  - rewrite popularity_keys. apply precedes_first_seen; [intros []|exact Hp].
Qed.

End Ranking.

(** C1 (as amended).  The ranking is the pairs (keyword, size of its group)
    sorted by count in descending order; of two keywords with equal counts
    the one ranked first is the one that a headline of [all_data] shows
    first as its primary keyword (the order in which the groups were
    created), not the one that comes first in [frequency_words]. *)
Theorem ranking_ties_keep_first_appearance
        (lower : str -> str) (self : TrendAnalyzer) (now : datetime)
        (k1 k2 : str) (c : Z) :
  let r := analyze_data lower self now in
  In (k1, c) r.(sorted_keywords) ->
  In (k2, c) r.(sorted_keywords) ->
  precedes k1 k2 (primary_keywords lower self self.(all_data)) ->
  precedes k1 k2 (map fst r.(sorted_keywords)) /\
  StronglySorted (fun a b => snd a >= snd b) r.(sorted_keywords) /\
  Permutation r.(sorted_keywords)
              (map (fun '(k, g) => (k, len g)) r.(keyword_matches)).
Proof.
  intros r H1 H2 Hp. subst r. split; [|split].
  - now apply ranking_ties with (c := c).
  - unfold analyze_data. cbn [sorted_keywords]. apply sorted_reverse_descending.
  - rewrite <- popularity_is_group_size. apply ranking_perm.
Qed.

Lemma ranking_ties_keep_first_appearance_witness :
  let self := Ex.analyzer [u "AI"; u "stock"] [] []
                [Ex.headline "stock market" 2 "Y";
                 Ex.headline "AI breakthrough" 1 "X"] in
  let r := analyze_data ascii_lower self Ex.now in
  precedes (u "stock") (u "AI") (map fst r.(sorted_keywords)) /\
  StronglySorted (fun a b => snd a >= snd b) r.(sorted_keywords) /\
  Permutation r.(sorted_keywords)
              (map (fun '(k, g) => (k, len g)) r.(keyword_matches)).
Proof.
  apply (@ranking_ties_keep_first_appearance ascii_lower
           (Ex.analyzer [u "AI"; u "stock"] [] []
              [Ex.headline "stock market" 2 "Y";
               Ex.headline "AI breakthrough" 1 "X"])
           Ex.now (u "stock") (u "AI") 1).
  - vm_compute. tauto.
  - vm_compute. tauto.
  - exists [], [u "AI"]. split; [reflexivity|intros []].
Defined.

(** C1 as worded fails: with frequency words "AI", "stock" and the headlines
    "stock market", "AI breakthrough" both keywords count one headline, "AI"
    comes first in [frequency_words], and the ranking puts "stock" first. *)
Lemma ranking_ties_ignore_frequency_order :
  let self := Ex.analyzer [u "AI"; u "stock"] [] []
                [Ex.headline "stock market" 2 "Y";
                 Ex.headline "AI breakthrough" 1 "X"] in
  let r := analyze_data ascii_lower self Ex.now in
  r.(sorted_keywords) = [(u "stock", 1); (u "AI", 1)] /\
  precedes (u "AI") (u "stock") self.(frequency_words) /\
  ~ precedes (u "AI") (u "stock") (map fst r.(sorted_keywords)).
Proof.
  split; [reflexivity|]. split.
  - exists [], [u "stock"]. split; [reflexivity|intros []].
  - intros (l1 & l2 & E & Hn). vm_compute in E.
    destruct l1 as [|a l1].
    + discriminate E.
    + injection E as <- E. apply Hn. now left.
Qed.

(* ================================================================= *)
(** ** The time window  ([calculate_time_range]) *)

Section TimeFacts.

Variable strptime : str -> result datetime.
Variable CONFIG : Config.
Variable now : datetime.

Lemma timedelta_days_one : timedelta_days 1 = Ok US_PER_DAY.
Proof. reflexivity. Qed.

Lemma US_PER_DAY_pos : 0 < US_PER_DAY.
Proof. reflexivity. Qed.

Lemma US_PER_HOUR_pos : 0 < US_PER_HOUR.
Proof. reflexivity. Qed.

Lemma clamp_is_min (e : datetime) :
  (if e >? now then now else e) = Z.min e now.
Proof. destruct (Z.gtb_spec e now); lia. Qed.

Lemma total_hours_pos : 0 < total_hours CONFIG.
Proof.
  unfold total_hours.
  destruct (Z.leb_spec (CONFIG.(HISTORY_DAYS) * 24 + CONFIG.(HISTORY_HOURS)) 0);
    lia.
Qed.

Lemma datetime_sub_ok (d : datetime) (t : timedelta) (r : datetime) :
  datetime_sub d t = Ok r -> r = d - t /\ valid_datetime r = true.
Proof.
  unfold datetime_sub. destruct (valid_datetime (d - t)) eqn:E; [|discriminate].
  intros [= <-]. now split.
Qed.

Lemma mk_timedelta_ok (us : Z) (t : timedelta) :
  mk_timedelta us = Ok t -> t = us.
Proof.
  unfold mk_timedelta. destruct (_ && _); [|discriminate]. now intros [= <-].
Qed.

Lemma mk_timedelta_no_ValueError (us : Z) : mk_timedelta us <> Raise ValueError.
Proof. unfold mk_timedelta. destruct (_ && _); discriminate. Qed.

Lemma datetime_sub_no_ValueError (d : datetime) (t : timedelta) :
  datetime_sub d t <> Raise ValueError.
Proof. unfold datetime_sub. destruct (valid_datetime _); discriminate. Qed.

(** What the day and hour rule returns, when it returns. *)
Lemma duration_range_ok (w : TimeRange) :
  duration_range CONFIG now = Ok w ->
  w = {| start_date := now - total_hours CONFIG * US_PER_HOUR;
         end_date := now;
         description := DescPast CONFIG.(HISTORY_DAYS) CONFIG.(HISTORY_HOURS);
         mode := duration |}.
Proof.
  unfold duration_range, timedelta_hours.
  destruct (mk_timedelta (total_hours CONFIG * US_PER_HOUR)) as [td|e] eqn:Etd;
    [|discriminate].
  apply mk_timedelta_ok in Etd. subst td. cbn [bind].
  destruct (datetime_sub now (total_hours CONFIG * US_PER_HOUR)) as [st|e] eqn:Es;
    [|discriminate].
  apply datetime_sub_ok in Es as [-> _]. cbn [bind]. now intros [= <-].
Qed.

Lemma duration_range_no_ValueError :
  duration_range CONFIG now <> Raise ValueError.
Proof.
  unfold duration_range, timedelta_hours.
  destruct (mk_timedelta (total_hours CONFIG * US_PER_HOUR)) as [td|e] eqn:Etd.
  - cbn [bind].
    destruct (datetime_sub now td) as [st|e] eqn:Es; [discriminate|].
    cbn [bind]. intros [= ->]. now apply datetime_sub_no_ValueError in Es.
  - cbn [bind]. intros [= ->]. now apply mk_timedelta_no_ValueError in Etd.
Qed.

(** The day and hour rule returns whenever the window starts no earlier
    than [datetime.min]. *)
Lemma duration_range_returns :
  valid_datetime now = true ->
  total_hours CONFIG * US_PER_HOUR <= now ->
  duration_range CONFIG now =
    Ok {| start_date := now - total_hours CONFIG * US_PER_HOUR;
          end_date := now;
          description := DescPast CONFIG.(HISTORY_DAYS) CONFIG.(HISTORY_HOURS);
          mode := duration |}.
Proof.
  intros Hv Hle. unfold valid_datetime in Hv.
  apply andb_true_iff in Hv as [Hlo Hhi].
  apply Z.leb_le in Hlo, Hhi. unfold datetime_min in Hlo.
  pose proof total_hours_pos as Hpos. pose proof US_PER_HOUR_pos as Hh.
  unfold duration_range, timedelta_hours, mk_timedelta.
  assert (Hd0 : 0 <= total_hours CONFIG * US_PER_HOUR / US_PER_DAY).
  { apply Z.div_pos; [nia|apply US_PER_DAY_pos]. }
  assert (Hd1 : total_hours CONFIG * US_PER_HOUR / US_PER_DAY <= MAX_DELTA_DAYS).
  { apply Z.lt_succ_r. apply Z.div_lt_upper_bound; [apply US_PER_DAY_pos|].
    eapply Z.le_lt_trans; [exact Hle|].
    eapply Z.le_lt_trans; [exact Hhi|]. reflexivity. }
  assert (Hb : (- MAX_DELTA_DAYS <=? total_hours CONFIG * US_PER_HOUR / US_PER_DAY)
               && (total_hours CONFIG * US_PER_HOUR / US_PER_DAY <=? MAX_DELTA_DAYS)
               = true).
  { apply andb_true_iff. split; apply Z.leb_le; [|exact Hd1].
    assert (- MAX_DELTA_DAYS <= 0) by discriminate. lia. }
  rewrite Hb. cbn [bind]. unfold datetime_sub.
  assert (Hv : valid_datetime (now - total_hours CONFIG * US_PER_HOUR) = true).
  { unfold valid_datetime, datetime_min. apply andb_true_iff.
    split; apply Z.leb_le; nia. }
  rewrite Hv. reflexivity.
Qed.

(** What the first [try] returns, when it returns. *)
Lemma custom_range_body_ok (w : TimeRange) :
  custom_range_body strptime CONFIG now = Ok w ->
  exists s e,
    strptime CONFIG.(CUSTOM_START_DATE) = Ok s /\
    strptime CONFIG.(CUSTOM_END_DATE) = Ok e /\
    w.(end_date) = Z.min e now /\
    w.(start_date) =
      (if s >? Z.min e now then Z.min e now - US_PER_DAY else s) /\
    w.(mode) = custom_range.
Proof.
  unfold custom_range_body.
  destruct (strptime CONFIG.(CUSTOM_START_DATE)) as [s|x]; [|discriminate].
  destruct (strptime CONFIG.(CUSTOM_END_DATE)) as [e|x]; [|discriminate].
  cbn [bind]. rewrite clamp_is_min. intros H. exists s, e.
  split; [reflexivity|]. split; [reflexivity|].
  destruct (s >? Z.min e now).
  - rewrite timedelta_days_one in H. cbn [bind] in H.
    destruct (datetime_sub (Z.min e now) US_PER_DAY) as [st|x] eqn:Es;
      [|discriminate].
    apply datetime_sub_ok in Es as [-> _]. cbn [bind] in H.
    injection H as <-. repeat split.
  - cbn [bind] in H. injection H as <-. repeat split.
Qed.

(** What the second [try] returns, when it returns. *)
Lemma from_date_body_ok (w : TimeRange) :
  from_date_body strptime CONFIG now = Ok w ->
  exists s,
    strptime CONFIG.(CUSTOM_START_DATE) = Ok s /\
    w.(end_date) = now /\
    w.(start_date) = (if s >? now then now - US_PER_DAY else s) /\
    w.(mode) = from_date.
Proof.
  unfold from_date_body.
  destruct (strptime CONFIG.(CUSTOM_START_DATE)) as [s|x]; [|discriminate].
  cbn [bind]. intros H. exists s. split; [reflexivity|].
  destruct (s >? now).
  - rewrite timedelta_days_one in H. cbn [bind] in H.
    destruct (datetime_sub now US_PER_DAY) as [st|x] eqn:Es; [|discriminate].
    apply datetime_sub_ok in Es as [-> _]. cbn [bind] in H.
    injection H as <-. repeat split.
  - cbn [bind] in H. injection H as <-. repeat split.
Qed.

Lemma try_except_ok {A} (body handler : result A) (a : A) :
  try_except_ValueError body handler = Ok a ->
  body = Ok a \/ (body = Raise ValueError /\ handler = Ok a).
Proof.
  destruct body as [b|[|]]; simpl; intros H; [now left|now right|discriminate].
Qed.

(** Every window that is returned comes from one of the three rules. *)
Lemma calculate_time_range_ok (w : TimeRange) :
  calculate_time_range strptime CONFIG now = Ok w ->
  custom_range_body strptime CONFIG now = Ok w \/
  from_date_body strptime CONFIG now = Ok w \/
  duration_range CONFIG now = Ok w.
Proof.
  unfold calculate_time_range.
  destruct (truthy CONFIG.(CUSTOM_START_DATE) && truthy CONFIG.(CUSTOM_END_DATE)).
  - intros H. apply try_except_ok in H as [H|[_ H]]; auto.
  - destruct (truthy CONFIG.(CUSTOM_START_DATE)).
    + intros H. apply try_except_ok in H as [H|[_ H]]; auto.
    + auto.
Qed.

Lemma try_except_no_ValueError {A} (body handler : result A) :
  handler <> Raise ValueError ->
  try_except_ValueError body handler <> Raise ValueError.
Proof. destruct body as [b|[|]]; simpl; intros H; [discriminate|exact H|discriminate]. Qed.

(** A malformed date never makes [calculate_time_range] fail: the only
    exception that can leave it is [OverflowError]. *)
Lemma calculate_time_range_no_ValueError :
  calculate_time_range strptime CONFIG now <> Raise ValueError.
Proof.
  unfold calculate_time_range.
  destruct (truthy CONFIG.(CUSTOM_START_DATE) && truthy CONFIG.(CUSTOM_END_DATE)).
  - apply try_except_no_ValueError, duration_range_no_ValueError.
  - destruct (truthy CONFIG.(CUSTOM_START_DATE)).
    + apply try_except_no_ValueError, duration_range_no_ValueError.
    + apply duration_range_no_ValueError.
Qed.

(** A window is returned whenever [now] is a datetime from 0001-01-02 on,
    the day and hour counts do not reach before [datetime.min], and the
    dates that parse are from 0001-01-02 on. *)
Lemma calculate_time_range_returns :
  valid_datetime now = true ->
  US_PER_DAY <= now ->
  total_hours CONFIG * US_PER_HOUR <= now ->
  (forall x d, strptime x = Ok d -> US_PER_DAY <= d) ->
  (forall x e, strptime x = Raise e -> e = ValueError) ->
  exists w, calculate_time_range strptime CONFIG now = Ok w.
Proof.
  intros Hv Hday Hh Hlo Hex.
  pose proof (duration_range_returns Hv Hh) as Hdur.
  assert (Hsub : forall d, US_PER_DAY <= d -> d <= now ->
                           datetime_sub d US_PER_DAY = Ok (d - US_PER_DAY)).
  { intros d Hd Hdn. unfold datetime_sub.
    assert (E : valid_datetime (d - US_PER_DAY) = true); [|now rewrite E].
    unfold valid_datetime in *. apply andb_true_iff in Hv as [_ Hhi].
    apply Z.leb_le in Hhi. pose proof US_PER_DAY_pos.
    apply andb_true_iff. unfold datetime_min.
    split; apply Z.leb_le; lia. }
  unfold calculate_time_range.
  destruct (truthy CONFIG.(CUSTOM_START_DATE) && truthy CONFIG.(CUSTOM_END_DATE)).
  - unfold custom_range_body.
    destruct (strptime CONFIG.(CUSTOM_START_DATE)) as [s|x] eqn:Ps.
    + destruct (strptime CONFIG.(CUSTOM_END_DATE)) as [e|x] eqn:Pe.
      * cbn [bind]. rewrite clamp_is_min.
        destruct (s >? Z.min e now).
        -- rewrite timedelta_days_one. cbn [bind].
           rewrite Hsub; [eexists; reflexivity| |lia].
           apply Hlo in Pe. lia.
        -- eexists; reflexivity.
      * apply Hex in Pe. subst x. cbn. rewrite Hdur. eexists; reflexivity.
    + apply Hex in Ps. subst x. cbn. rewrite Hdur. eexists; reflexivity.
  - destruct (truthy CONFIG.(CUSTOM_START_DATE)).
    + unfold from_date_body.
      destruct (strptime CONFIG.(CUSTOM_START_DATE)) as [s|x] eqn:Ps.
      * cbn [bind]. destruct (s >? now).
        -- rewrite timedelta_days_one. cbn [bind].
           rewrite Hsub; [eexists; reflexivity|lia|lia].
        -- eexists; reflexivity.
      * apply Hex in Ps. subst x. cbn. rewrite Hdur. eexists; reflexivity.
    + rewrite Hdur. eexists; reflexivity.
Qed.

End TimeFacts.

(** C7.  Whatever the configuration and the instant [now], a window that
    [calculate_time_range] returns has [start_date <= end_date] and
    [end_date <= now]. *)
Theorem time_range_is_ordered
        (strptime : str -> result datetime) (CONFIG : Config)
        (now : datetime) (w : TimeRange) :
  calculate_time_range strptime CONFIG now = Ok w ->
  w.(start_date) <= w.(end_date) /\ w.(end_date) <= now.
Proof.
  intros H. pose proof US_PER_DAY_pos as Hd.
  apply calculate_time_range_ok in H as [H|[H|H]].
  - apply custom_range_body_ok in H as (s & e & _ & _ & He & Hs & _).
    rewrite He, Hs. destruct (Z.gtb_spec s (Z.min e now)); lia.
  - apply from_date_body_ok in H as (s & _ & He & Hs & _).
    rewrite He, Hs. destruct (Z.gtb_spec s now); lia.
  - apply duration_range_ok in H. subst w. simpl.
    pose proof (total_hours_pos CONFIG). pose proof US_PER_HOUR_pos. nia.
Qed.

Lemma time_range_is_ordered_witness :
  let w := {| start_date := mk_datetime 2024 3 1 0 0 0 - US_PER_DAY;
              end_date := mk_datetime 2024 3 1 0 0 0;
              description :=
                DescRange (mk_datetime 2024 3 1 0 0 0 - US_PER_DAY)
                          (mk_datetime 2024 3 1 0 0 0);
              mode := custom_range |} in
  calculate_time_range strptime_ymd (Ex.config "2024-03-02" "2024-03-01") Ex.now
    = Ok w /\
  w.(start_date) <= w.(end_date) /\ w.(end_date) <= Ex.now.
Proof.
  intros w. split; [vm_compute; reflexivity|].
  apply (@time_range_is_ordered strptime_ymd
           (Ex.config "2024-03-02" "2024-03-01") Ex.now w).
  vm_compute. reflexivity.
Defined.

(** C6 (as amended).  With both dates configured and parsed, when the end
    date clamped to [now] is earlier than the start date and the day before
    the clamped end is a date that [datetime] can hold (the clamped end is not
    before 0001-01-02), the window starts one day before the clamped end,
    ends at [min(end, now)] and has mode [custom_range]. *)
Theorem end_before_start_resets_start
        (strptime : str -> result datetime) (CONFIG : Config)
        (now s e : datetime) :
  truthy CONFIG.(CUSTOM_START_DATE) = true ->
  truthy CONFIG.(CUSTOM_END_DATE) = true ->
  strptime CONFIG.(CUSTOM_START_DATE) = Ok s ->
  strptime CONFIG.(CUSTOM_END_DATE) = Ok e ->
  Z.min e now < s ->
  valid_datetime (Z.min e now - US_PER_DAY) = true ->
  calculate_time_range strptime CONFIG now =
    Ok {| start_date := Z.min e now - US_PER_DAY;
          end_date := Z.min e now;
          description := DescRange (Z.min e now - US_PER_DAY) (Z.min e now);
          mode := custom_range |}.
Proof.
  intros Hs He Ps Pe Hlt Hv.
  unfold calculate_time_range. rewrite Hs, He. cbn [andb].
  unfold custom_range_body. rewrite Ps, Pe. cbn [bind].
  rewrite clamp_is_min.
  assert (Hgt : (s >? Z.min e now) = true) by (apply Z.gtb_lt; exact Hlt).
  rewrite Hgt, timedelta_days_one. cbn [bind].
  unfold datetime_sub. rewrite Hv. reflexivity.
Qed.

Lemma end_before_start_resets_start_witness :
  calculate_time_range strptime_ymd (Ex.config "2024-03-05" "2024-03-01") Ex.now
  = Ok {| start_date := mk_datetime 2024 2 29 0 0 0;
          end_date := mk_datetime 2024 3 1 0 0 0;
          description := DescRange (mk_datetime 2024 2 29 0 0 0)
                                   (mk_datetime 2024 3 1 0 0 0);
          mode := custom_range |}.
Proof.
  apply (@end_before_start_resets_start strptime_ymd
           (Ex.config "2024-03-05" "2024-03-01") Ex.now
           (mk_datetime 2024 3 5 0 0 0) (mk_datetime 2024 3 1 0 0 0));
    vm_compute; reflexivity.
Defined.

(** C6 as worded fails at the lower end of the calendar: with the start date
    0001-01-02 and the end date 0001-01-01 both dates parse, the end is
    earlier than the start, and the subtraction of one day from
    [datetime.min] raises [OverflowError], which the [except ValueError]
    clause does not catch: no window is returned. *)
Lemma end_before_start_overflows :
  let CONFIG := Ex.config "0001-01-02" "0001-01-01" in
  strptime_ymd CONFIG.(CUSTOM_START_DATE) = Ok US_PER_DAY /\
  strptime_ymd CONFIG.(CUSTOM_END_DATE) = Ok datetime_min /\
  Z.min datetime_min Ex.now < US_PER_DAY /\
  calculate_time_range strptime_ymd CONFIG Ex.now = Raise OverflowError /\
  forall w, calculate_time_range strptime_ymd CONFIG Ex.now <> Ok w.
Proof.
  repeat split; try (vm_compute; reflexivity).
  intros w. vm_compute. discriminate.
Qed.

(** C2 (as amended).  With a start date that parses and an end date that is
    configured but does not parse, the [ValueError] is caught and the window
    is the one of the day and hour counts: the test for a lone start date is
    the [elif] of the test that was taken, so it is not tried.  A window that
    is returned is [[now - total_hours, now]] with mode [duration], and no
    [ValueError] leaves the function. *)
Theorem malformed_end_date_falls_to_duration
        (strptime : str -> result datetime) (CONFIG : Config)
        (now s : datetime) :
  truthy CONFIG.(CUSTOM_START_DATE) = true ->
  truthy CONFIG.(CUSTOM_END_DATE) = true ->
  strptime CONFIG.(CUSTOM_START_DATE) = Ok s ->
  strptime CONFIG.(CUSTOM_END_DATE) = Raise ValueError ->
  calculate_time_range strptime CONFIG now = duration_range CONFIG now /\
  calculate_time_range strptime CONFIG now <> Raise ValueError /\
  (forall w, calculate_time_range strptime CONFIG now = Ok w ->
             w.(start_date) = now - total_hours CONFIG * US_PER_HOUR /\
             w.(end_date) = now /\
             w.(mode) = duration) /\
  (valid_datetime now = true -> total_hours CONFIG * US_PER_HOUR <= now ->
   exists w, calculate_time_range strptime CONFIG now = Ok w).
Proof.
  intros Hs He Ps Pe.
  assert (E : calculate_time_range strptime CONFIG now
              = duration_range CONFIG now).
  { unfold calculate_time_range. rewrite Hs, He. cbn [andb].
    unfold custom_range_body. rewrite Ps, Pe. reflexivity. }
  rewrite E. split; [reflexivity|].
  split; [apply duration_range_no_ValueError|]. split.
  - intros w H. apply duration_range_ok in H. subst w. repeat split.
  - intros Hv Hle. eexists. now apply duration_range_returns.
Qed.

Lemma malformed_end_date_falls_to_duration_witness :
  let CONFIG := Ex.config "2024-01-01" "2024-13-45" in
  calculate_time_range strptime_ymd CONFIG Ex.now
    = duration_range CONFIG Ex.now /\
  calculate_time_range strptime_ymd CONFIG Ex.now <> Raise ValueError /\
  (forall w, calculate_time_range strptime_ymd CONFIG Ex.now = Ok w ->
             w.(start_date) = Ex.now - total_hours CONFIG * US_PER_HOUR /\
             w.(end_date) = Ex.now /\
             w.(mode) = duration) /\
  (valid_datetime Ex.now = true ->
   total_hours CONFIG * US_PER_HOUR <= Ex.now ->
   exists w, calculate_time_range strptime_ymd CONFIG Ex.now = Ok w).
Proof.
  apply (@malformed_end_date_falls_to_duration strptime_ymd
           (Ex.config "2024-01-01" "2024-13-45") Ex.now
           (mk_datetime 2024 1 1 0 0 0)); vm_compute; reflexivity.
Defined.

(** C2 as worded fails: with the start date 2024-01-01 and the end date
    "2024-13-45" the window is not [[start, now]] with mode [from_date]; it
    is the last 24 hours with mode [duration]. *)
Lemma malformed_end_date_not_from_date :
  let CONFIG := Ex.config "2024-01-01" "2024-13-45" in
  strptime_ymd CONFIG.(CUSTOM_START_DATE) = Ok (mk_datetime 2024 1 1 0 0 0) /\
  strptime_ymd CONFIG.(CUSTOM_END_DATE) = Raise ValueError /\
  calculate_time_range strptime_ymd CONFIG Ex.now
    = Ok {| start_date := mk_datetime 2024 6 14 12 0 0;
            end_date := Ex.now;
            description := DescPast 1 0;
            mode := duration |} /\
  forall w, calculate_time_range strptime_ymd CONFIG Ex.now = Ok w ->
            ~ (w.(start_date) = mk_datetime 2024 1 1 0 0 0 /\
               w.(end_date) = Ex.now /\
               w.(mode) = from_date).
Proof.
  repeat split; try (vm_compute; reflexivity).
  intros w H (_ & _ & Hm). vm_compute in H. injection H as <-.
  discriminate Hm.
Qed.

(* ================================================================= *)
(** ** The scenarios of the specification, evaluated *)

(** Two headlines for "AI" at ranks 3 and 1 and one for "stock": two groups,
    the first ordered by rank, and the ranking [("AI", 2); ("stock", 1)]. *)
Example scenario_groups_and_ranking :
  let self := Ex.analyzer [u "AI"; u "stock"] [] []
                [Ex.headline "AI breakthrough" 3 "X";
                 Ex.headline "AI breakthrough" 1 "X";
                 Ex.headline "stock market" 2 "Y"] in
  let r := analyze_data ascii_lower self Ex.now in
  r.(sorted_keywords) = [(u "AI", 2); (u "stock", 1)] /\
  map (fun '(k, g) => (k, map m_rank g)) r.(keyword_matches)
    = [(u "AI", [1; 3]); (u "stock", [2])] /\
  r.(platform_stats) = [(u "X", 2); (u "Y", 1)] /\
  (r.(total_items), r.(matched_count), r.(filtered_count)) = (3, 3, 0).
Proof. repeat split. Qed.

(** A filter word in the title: filtered, counted in [filtered_count], in no
    group. *)
Example scenario_filtered :
  let self := Ex.analyzer [u "AI"] [[24191; 21578]%N] []
                [{| title := Some ([24191; 21578; 32]%N ++ u "AI");
                    url := None; rank := Some 1; timestamp := None;
                    platform_name := u "X" |}] in
  let r := analyze_data ascii_lower self Ex.now in
  r.(keyword_matches) = [] /\
  (r.(total_items), r.(matched_count), r.(filtered_count)) = (1, 0, 1).
Proof. repeat split. Qed.

(** A must word missing from the title: rejected, counted in [total_items]
    only. *)
Example scenario_rejected :
  let self := Ex.analyzer [[32929; 24066]%N] []
                [[32929; 24066]%N; [19979; 36300]%N]
                [{| title := Some [32929; 24066; 19978; 28072]%N;
                    url := None; rank := Some 1; timestamp := None;
                    platform_name := u "X" |}] in
  let r := analyze_data ascii_lower self Ex.now in
  r.(keyword_matches) = [] /\
  (r.(total_items), r.(matched_count), r.(filtered_count)) = (1, 0, 0).
Proof. repeat split. Qed.

(** The three lists read from one file. *)
Example scenario_load :
  let file := FileContent (u "# words" ++ NL :: u "AI" ++ NL :: NL
                           :: u "!ad" ++ NL :: u "+must" ++ NL :: u " stock ") in
  load_frequency_words file = [u "AI"; u "stock"] /\
  load_filter_words file = [u "ad"] /\
  load_must_words file = [u "must"].
Proof. repeat split. Qed.

(** The three rules of the time window. *)
Example scenario_time_modes :
  option_map mode
    (match calculate_time_range strptime_ymd
             (Ex.config "2024-01-01" "2024-01-31") Ex.now with
     | Ok w => Some w | Raise _ => None end) = Some custom_range /\
  option_map mode
    (match calculate_time_range strptime_ymd
             (Ex.config "2024-01-01" "") Ex.now with
     | Ok w => Some w | Raise _ => None end) = Some from_date /\
  option_map mode
    (match calculate_time_range strptime_ymd
             (Ex.config "" "2024-01-31") Ex.now with
     | Ok w => Some w | Raise _ => None end) = Some duration.
Proof. repeat split. Qed.

(* ================================================================= *)
(** * Further properties of the code *)

(* ================================================================= *)
(** ** [calculate_time_range]: the three rules *)

(** X1.  With both dates configured and parsed and the start date not after
    [min(end, now)], the window is [[start, min(end, now)]] with mode
    [custom_range]: the configured dates as they are when the end date is
    not in the future, and an end date in the future cut to [now]. *)
Theorem custom_range_kept
        (strptime : str -> result datetime) (CONFIG : Config)
        (now s e : datetime) :
  truthy CONFIG.(CUSTOM_START_DATE) = true ->
  truthy CONFIG.(CUSTOM_END_DATE) = true ->
  strptime CONFIG.(CUSTOM_START_DATE) = Ok s ->
  strptime CONFIG.(CUSTOM_END_DATE) = Ok e ->
  s <= Z.min e now ->
  calculate_time_range strptime CONFIG now =
    Ok {| start_date := s;
          end_date := Z.min e now;
          description := DescRange s (Z.min e now);
          mode := custom_range |}.
Proof.
  intros Hs He Ps Pe Hle.
  unfold calculate_time_range. rewrite Hs, He. cbn [andb].
  unfold custom_range_body. rewrite Ps, Pe. cbn [bind].
  rewrite clamp_is_min.
  assert (Hgt : (s >? Z.min e now) = false).
  { destruct (Z.gtb_spec s (Z.min e now)); [lia|reflexivity]. }
  rewrite Hgt. reflexivity.
Qed.

Lemma custom_range_kept_witness :
  calculate_time_range strptime_ymd (Ex.config "2024-06-01" "2024-07-01") Ex.now
  = Ok {| start_date := mk_datetime 2024 6 1 0 0 0;
          end_date := Ex.now;
          description := DescRange (mk_datetime 2024 6 1 0 0 0) Ex.now;
          mode := custom_range |}.
Proof.
  apply (@custom_range_kept strptime_ymd
           (Ex.config "2024-06-01" "2024-07-01") Ex.now
           (mk_datetime 2024 6 1 0 0 0) (mk_datetime 2024 7 1 0 0 0));
    vm_compute; try reflexivity; discriminate.
Defined.

(** X2.  With a start date that parses and no end date, the window ends at
    [now] and has mode [from_date]; it starts at the start date when that is
    not in the future, and one day before [now] when it is (and that day is
    a date [datetime] can hold). *)
Theorem start_only_window
        (strptime : str -> result datetime) (CONFIG : Config)
        (now s : datetime) :
  CONFIG.(CUSTOM_END_DATE) = [] ->
  truthy CONFIG.(CUSTOM_START_DATE) = true ->
  strptime CONFIG.(CUSTOM_START_DATE) = Ok s ->
  (s <= now ->
   calculate_time_range strptime CONFIG now =
     Ok {| start_date := s; end_date := now;
           description := DescFrom s; mode := from_date |}) /\
  (now < s -> valid_datetime (now - US_PER_DAY) = true ->
   calculate_time_range strptime CONFIG now =
     Ok {| start_date := now - US_PER_DAY; end_date := now;
           description := DescFrom (now - US_PER_DAY); mode := from_date |}).
Proof.
  intros He Hs Ps.
  assert (E : calculate_time_range strptime CONFIG now
              = try_except_ValueError (from_date_body strptime CONFIG now)
                                      (duration_range CONFIG now)).
  { unfold calculate_time_range. rewrite Hs, He. reflexivity. }
  rewrite E. unfold from_date_body. rewrite Ps. cbn [bind]. split.
  - intros Hle.
    assert (Hgt : (s >? now) = false).
    { destruct (Z.gtb_spec s now); [lia|reflexivity]. }
    rewrite Hgt. reflexivity.
  - intros Hlt Hv.
    assert (Hgt : (s >? now) = true) by (apply Z.gtb_lt; exact Hlt).
    rewrite Hgt, timedelta_days_one. cbn [bind].
    unfold datetime_sub. rewrite Hv. reflexivity.
Qed.

Lemma start_only_window_witness :
  calculate_time_range strptime_ymd (Ex.config "2024-01-01" "") Ex.now =
    Ok {| start_date := mk_datetime 2024 1 1 0 0 0; end_date := Ex.now;
          description := DescFrom (mk_datetime 2024 1 1 0 0 0);
          mode := from_date |} /\
  calculate_time_range strptime_ymd (Ex.config "2030-01-01" "") Ex.now =
    Ok {| start_date := Ex.now - US_PER_DAY; end_date := Ex.now;
          description := DescFrom (Ex.now - US_PER_DAY); mode := from_date |}.
Proof.
  split.
  - apply (@start_only_window strptime_ymd (Ex.config "2024-01-01" "") Ex.now
             (mk_datetime 2024 1 1 0 0 0)); try reflexivity.
    vm_compute. discriminate.
  - apply (@start_only_window strptime_ymd (Ex.config "2030-01-01" "") Ex.now
             (mk_datetime 2030 1 1 0 0 0)); reflexivity.
Defined.

(** X3.  When the start date is not configured, or does not parse, the end
    date plays no part: the result is the one of the day and hour counts,
    whatever [CUSTOM_END_DATE] holds. *)
Theorem no_usable_start_date
        (strptime : str -> result datetime) (CONFIG : Config) (now : datetime) :
  CONFIG.(CUSTOM_START_DATE) = [] \/
  strptime CONFIG.(CUSTOM_START_DATE) = Raise ValueError ->
  calculate_time_range strptime CONFIG now = duration_range CONFIG now.
Proof.
  intros [H|H]; unfold calculate_time_range.
  - rewrite H. reflexivity.
  - destruct (truthy CONFIG.(CUSTOM_START_DATE)); cbn [andb]; [|reflexivity].
    destruct (truthy CONFIG.(CUSTOM_END_DATE)).
    + unfold custom_range_body. rewrite H. reflexivity.
    + unfold from_date_body. rewrite H. reflexivity.
Qed.

Lemma no_usable_start_date_witness :
  calculate_time_range strptime_ymd (Ex.config "01/02/2024" "2024-03-01") Ex.now
  = duration_range (Ex.config "01/02/2024" "2024-03-01") Ex.now.
Proof.
  apply (@no_usable_start_date strptime_ymd
           (Ex.config "01/02/2024" "2024-03-01") Ex.now).
  right. reflexivity.
Defined.

Lemma truthy_false_nil {A} (l : list A) : truthy l = false -> l = [].
Proof. destruct l; [reflexivity|discriminate]. Qed.

(** X4.  The mode of a returned window tells which rule produced it.
    [custom_range]: both dates are configured and parse, the window ends at
    [min(end, now)] and starts at the start date or one day before its end.
    [from_date]: the start date parses, no end date is configured, and the
    window ends at [now].  [duration]: there is no start date, or a
    configured date failed to parse. *)
Theorem mode_identifies_rule
        (strptime : str -> result datetime) (CONFIG : Config)
        (now : datetime) (w : TimeRange) :
  calculate_time_range strptime CONFIG now = Ok w ->
  match w.(mode) with
  | custom_range =>
      truthy CONFIG.(CUSTOM_START_DATE) = true /\
      truthy CONFIG.(CUSTOM_END_DATE) = true /\
      exists s e,
        strptime CONFIG.(CUSTOM_START_DATE) = Ok s /\
        strptime CONFIG.(CUSTOM_END_DATE) = Ok e /\
        w.(end_date) = Z.min e now /\
        (w.(start_date) = s \/ w.(start_date) = w.(end_date) - US_PER_DAY)
  | from_date =>
      truthy CONFIG.(CUSTOM_START_DATE) = true /\
      CONFIG.(CUSTOM_END_DATE) = [] /\
      w.(end_date) = now /\
      exists s,
        strptime CONFIG.(CUSTOM_START_DATE) = Ok s /\
        (w.(start_date) = s \/ w.(start_date) = now - US_PER_DAY)
  | duration =>
      CONFIG.(CUSTOM_START_DATE) = [] \/
      strptime CONFIG.(CUSTOM_START_DATE) = Raise ValueError \/
      (truthy CONFIG.(CUSTOM_END_DATE) = true /\
       strptime CONFIG.(CUSTOM_END_DATE) = Raise ValueError)
  end.
Proof.
  unfold calculate_time_range.
  destruct (truthy CONFIG.(CUSTOM_START_DATE)) eqn:Hs;
    destruct (truthy CONFIG.(CUSTOM_END_DATE)) eqn:He; cbn [andb]; intros H.
  - apply try_except_ok in H as [H|[Hb H]].
    + apply custom_range_body_ok in H as (s & e & Ps & Pe & Hend & Hst & ->).
      split; [reflexivity|]. split; [reflexivity|]. exists s, e.
      repeat split; try assumption.
      rewrite Hst, Hend. destruct (s >? Z.min e now); [now right|now left].
    + apply duration_range_ok in H. subst w. cbn [mode].
      unfold custom_range_body in Hb.
      destruct (strptime CONFIG.(CUSTOM_START_DATE)) as [s|x]; cbn [bind] in Hb.
      * destruct (strptime CONFIG.(CUSTOM_END_DATE)) as [e|x]; cbn [bind] in Hb.
        -- exfalso. rewrite clamp_is_min in Hb.
           destruct (s >? Z.min e now); cbn [bind] in Hb; [|discriminate].
           rewrite timedelta_days_one in Hb. cbn [bind] in Hb.
           destruct (datetime_sub (Z.min e now) US_PER_DAY) eqn:Ed;
             cbn [bind] in Hb; [discriminate|].
           injection Hb as ->. now apply datetime_sub_no_ValueError in Ed.
        -- right. right. split; [reflexivity|]. injection Hb as ->. reflexivity.
      * right. left. injection Hb as ->. reflexivity.
  - apply try_except_ok in H as [H|[Hb H]].
    + apply from_date_body_ok in H as (s & Ps & Hend & Hst & ->).
      split; [reflexivity|]. split; [now apply truthy_false_nil|].
      split; [exact Hend|]. exists s. split; [exact Ps|].
      rewrite Hst. destruct (s >? now); [now right|now left].
    + apply duration_range_ok in H. subst w. cbn [mode].
      unfold from_date_body in Hb.
      destruct (strptime CONFIG.(CUSTOM_START_DATE)) as [s|x]; cbn [bind] in Hb.
      * exfalso. destruct (s >? now); cbn [bind] in Hb; [|discriminate].
        rewrite timedelta_days_one in Hb. cbn [bind] in Hb.
        destruct (datetime_sub now US_PER_DAY) eqn:Ed;
          cbn [bind] in Hb; [discriminate|].
        injection Hb as ->. now apply datetime_sub_no_ValueError in Ed.
      * right. left. injection Hb as ->. reflexivity.
  - apply duration_range_ok in H. subst w. cbn [mode].
    left. now apply truthy_false_nil.
  - apply duration_range_ok in H. subst w. cbn [mode].
    left. now apply truthy_false_nil.
Qed.

Lemma mode_identifies_rule_witness :
  let CONFIG := Ex.config "2024-01-01" "2024-13-45" in
  CONFIG.(CUSTOM_START_DATE) = [] \/
  strptime_ymd CONFIG.(CUSTOM_START_DATE) = Raise ValueError \/
  (truthy CONFIG.(CUSTOM_END_DATE) = true /\
   strptime_ymd CONFIG.(CUSTOM_END_DATE) = Raise ValueError).
Proof.
  exact (@mode_identifies_rule strptime_ymd
           (Ex.config "2024-01-01" "2024-13-45") Ex.now
           {| start_date := mk_datetime 2024 6 14 12 0 0;
              end_date := Ex.now;
              description := DescPast 1 0;
              mode := duration |} eq_refl).
Defined.

(** X5.  A window of mode [duration] ends at [now], is never empty, and
    spans [HISTORY_DAYS * 24 + HISTORY_HOURS] hours when that number is
    positive and 24 hours when it is zero or negative. *)
Theorem duration_window_span
        (strptime : str -> result datetime) (CONFIG : Config)
        (now : datetime) (w : TimeRange) :
  calculate_time_range strptime CONFIG now = Ok w ->
  w.(mode) = duration ->
  let hours := CONFIG.(HISTORY_DAYS) * 24 + CONFIG.(HISTORY_HOURS) in
  w.(end_date) = now /\
  w.(start_date) < w.(end_date) /\
  (0 < hours -> w.(end_date) - w.(start_date) = hours * US_PER_HOUR) /\
  (hours <= 0 -> w.(end_date) - w.(start_date) = 24 * US_PER_HOUR).
Proof.
  intros H Hm hours.
  apply calculate_time_range_ok in H as [H|[H|H]].
  - apply custom_range_body_ok in H as (s & e & _ & _ & _ & _ & Hm').
    congruence.
  - apply from_date_body_ok in H as (s & _ & _ & _ & Hm'). congruence.
  - apply duration_range_ok in H. subst w. cbn [start_date end_date].
    pose proof (total_hours_pos CONFIG) as Hpos.
    pose proof US_PER_HOUR_pos as Hh.
    unfold total_hours in *. fold hours in Hpos |- *.
    split; [reflexivity|]. split; [nia|].
    split; intros Hc; destruct (Z.leb_spec hours 0); lia.
Qed.

Lemma duration_window_span_witness :
  let CONFIG := {| HISTORY_DAYS := 0; HISTORY_HOURS := -5;
                   CUSTOM_START_DATE := []; CUSTOM_END_DATE := [] |} in
  let w := {| start_date := Ex.now - 24 * US_PER_HOUR;
              end_date := Ex.now;
              description := DescPast 0 (-5);
              mode := duration |} in
  w.(end_date) = Ex.now /\
  w.(start_date) < w.(end_date) /\
  (0 < 0 * 24 + -5 -> w.(end_date) - w.(start_date) = (0 * 24 + -5) * US_PER_HOUR) /\
  (0 * 24 + -5 <= 0 -> w.(end_date) - w.(start_date) = 24 * US_PER_HOUR).
Proof.
  exact (@duration_window_span strptime_ymd
           {| HISTORY_DAYS := 0; HISTORY_HOURS := -5;
              CUSTOM_START_DATE := []; CUSTOM_END_DATE := [] |}
           Ex.now
           {| start_date := Ex.now - 24 * US_PER_HOUR;
              end_date := Ex.now;
              description := DescPast 0 (-5);
              mode := duration |} eq_refl eq_refl).
Defined.

(** X6.  No [ValueError] leaves [calculate_time_range], whatever the
    configured strings are and whatever [strptime] does with them: a
    function call ends with a window or with [OverflowError]. *)
Theorem malformed_dates_never_raise
        (strptime : str -> result datetime) (CONFIG : Config) (now : datetime) :
  (exists w, calculate_time_range strptime CONFIG now = Ok w) \/
  calculate_time_range strptime CONFIG now = Raise OverflowError.
Proof.
  pose proof (calculate_time_range_no_ValueError strptime CONFIG now) as H.
  destruct (calculate_time_range strptime CONFIG now) as [w|[|]].
  - left. now exists w.
  - now elim H.
  - now right.
Qed.

(** X7.  A window is returned whenever [now] is a datetime from 0001-01-02
    on, the day and hour counts do not reach before [datetime.min], a parsed
    end date is from 0001-01-02 on, and parsing the two configured strings
    fails with [ValueError] only. *)
Theorem time_range_returns
        (strptime : str -> result datetime) (CONFIG : Config) (now : datetime) :
  valid_datetime now = true ->
  US_PER_DAY <= now ->
  total_hours CONFIG * US_PER_HOUR <= now ->
  (forall e, strptime CONFIG.(CUSTOM_END_DATE) = Ok e -> US_PER_DAY <= e) ->
  (forall x, strptime CONFIG.(CUSTOM_START_DATE) = Raise x -> x = ValueError) ->
  (forall x, strptime CONFIG.(CUSTOM_END_DATE) = Raise x -> x = ValueError) ->
  exists w, calculate_time_range strptime CONFIG now = Ok w.
Proof.
  intros Hv Hday Hh Hlo HexS HexE.
  pose proof (duration_range_returns CONFIG Hv Hh) as Hdur.
  assert (Hsub : forall d, US_PER_DAY <= d -> d <= now ->
                           datetime_sub d US_PER_DAY = Ok (d - US_PER_DAY)).
  { intros d Hd Hdn. unfold datetime_sub.
    assert (E : valid_datetime (d - US_PER_DAY) = true); [|now rewrite E].
    unfold valid_datetime in *. apply andb_true_iff in Hv as [_ Hhi].
    apply Z.leb_le in Hhi. pose proof US_PER_DAY_pos.
    apply andb_true_iff. unfold datetime_min.
    split; apply Z.leb_le; lia. }
  unfold calculate_time_range.
  destruct (truthy CONFIG.(CUSTOM_START_DATE) && truthy CONFIG.(CUSTOM_END_DATE)).
  - unfold custom_range_body.
    destruct (strptime CONFIG.(CUSTOM_START_DATE)) as [s|x] eqn:Ps.
    + destruct (strptime CONFIG.(CUSTOM_END_DATE)) as [e|x] eqn:Pe.
      * cbn [bind]. rewrite clamp_is_min.
        destruct (s >? Z.min e now).
        -- rewrite timedelta_days_one. cbn [bind].
           rewrite Hsub; [eexists; reflexivity| |lia].
           specialize (Hlo e eq_refl). lia.
        -- eexists; reflexivity.
      * rewrite (HexE x eq_refl). cbn. rewrite Hdur. eexists; reflexivity.
    + rewrite (HexS x eq_refl). cbn. rewrite Hdur. eexists; reflexivity.
  - destruct (truthy CONFIG.(CUSTOM_START_DATE)).
    + unfold from_date_body.
      destruct (strptime CONFIG.(CUSTOM_START_DATE)) as [s|x] eqn:Ps.
      * cbn [bind]. destruct (s >? now).
        -- rewrite timedelta_days_one. cbn [bind].
           rewrite Hsub; [eexists; reflexivity|lia|lia].
        -- eexists; reflexivity.
      * rewrite (HexS x eq_refl). cbn. rewrite Hdur. eexists; reflexivity.
    + rewrite Hdur. eexists; reflexivity.
Qed.

Lemma time_range_returns_witness :
  exists w,
    calculate_time_range strptime_ymd (Ex.config "2024-03-05" "2024-03-01")
                         Ex.now = Ok w.
Proof.
  apply (@time_range_returns strptime_ymd
           (Ex.config "2024-03-05" "2024-03-01") Ex.now).
  - reflexivity.
  - vm_compute. discriminate.
  - vm_compute. discriminate.
  - intros e H. vm_compute in H. injection H as <-. vm_compute. discriminate.
  - intros x H. vm_compute in H. discriminate.
  - intros x H. vm_compute in H. discriminate.
Defined.

(* ================================================================= *)
(** ** The keyword loaders: lines, order and trimming *)

Section LoaderFacts.

Lemma lstrip_idem (s : str) : lstrip (lstrip s) = lstrip s.
Proof.
  induction s as [|c s IH]; [reflexivity|].
  simpl. destruct (is_space c) eqn:Hc; [exact IH|]. simpl. now rewrite Hc.
Qed.

Lemma rstrip_idem (s : str) : rstrip (rstrip s) = rstrip s.
Proof.
  induction s as [|c s IH]; [reflexivity|].
  simpl. destruct (rstrip s) as [|r0 r] eqn:R.
  - destruct (is_space c) eqn:Hc; [reflexivity|]. simpl. now rewrite Hc.
  - change (rstrip (c :: r0 :: r))
      with (match rstrip (r0 :: r) with
            | [] => if is_space c then [] else [c]
            | x :: r' => c :: x :: r'
            end).
    now rewrite IH.
Qed.

(** Removing blanks on the left of a string without blanks on the right
    leaves none on the right. *)
Lemma rstrip_lstrip_fixed (r : str) :
  rstrip r = r -> rstrip (lstrip r) = lstrip r.
Proof.
  induction r as [|c r IH]; intros H; [reflexivity|].
  simpl lstrip. destruct (is_space c) eqn:Hc; [|exact H].
  apply IH. simpl in H. rewrite Hc in H.
  destruct (rstrip r) as [|r0 r'] eqn:R; [discriminate|].
  now injection H.
Qed.

Lemma strip_rstrip (s : str) : rstrip (strip s) = strip s.
Proof. unfold strip. apply rstrip_lstrip_fixed, rstrip_idem. Qed.

Lemma strip_idem (s : str) : strip (strip s) = strip s.
Proof.
  unfold strip at 1. rewrite strip_rstrip. unfold strip. apply lstrip_idem.
Qed.

Lemma rstrip_tail (c : char) (w : str) :
  rstrip (c :: w) = c :: w -> rstrip w = w.
Proof.
  simpl. destruct (rstrip w) as [|r0 r] eqn:R.
  - destruct (is_space c); [discriminate|]. now intros [= <-].
  - now intros [= <-].
Qed.

Lemma lstrip_lines (s : str) :
  exists n,
    map strip (split NL s) = repeat [] n ++ map strip (split NL (lstrip s)).
Proof.
  induction s as [|c s (n & IH)].
  - now exists 0%nat.
  - simpl lstrip. destruct (is_space c) eqn:Hc; [|now exists 0%nat].
    destruct (split_cons NL c s) as (l0 & rest & E0 & E1).
    rewrite E1. rewrite E0 in IH. destruct (N.eqb c NL).
    + exists (S n). cbn [map repeat app]. now rewrite <- IH.
    + exists n. cbn [map]. rewrite (strip_space_cons _ _ Hc). exact IH.
Qed.

(** The lines of the stripped text are the lines of the text, stripped,
    without some blank lines at both ends. *)
Lemma strip_lines (s : str) :
  exists a b,
    map strip (split NL s) = repeat [] a ++ source_lines s ++ repeat [] b.
Proof.
  destruct (rstrip_lines s) as (b & Hr).
  destruct (lstrip_lines (rstrip s)) as (a & Hl).
  exists a, b. unfold source_lines. fold (strip s) in Hl.
  assert (E : map strip (split NL s)
              = map lstrip (map rstrip (split NL s))).
  { rewrite map_map. reflexivity. }
  rewrite E, Hr, map_app, map_map.
  change (map (fun x => lstrip (rstrip x))) with (map strip).
  rewrite Hl, <- app_assoc. f_equal. f_equal.
  clear. induction b as [|b IH]; [reflexivity|]. simpl. now rewrite IH.
Qed.

Lemma filter_repeat_nil (P : str -> bool) (n : nat) :
  P [] = false -> filter P (repeat [] n) = [].
Proof.
  intros H. induction n as [|n IH]; [reflexivity|]. simpl. now rewrite H.
Qed.

(** A test that blank lines fail sees the same lines before and after the
    text is stripped. *)
Lemma filter_source_lines (P : str -> bool) (s : str) :
  P [] = false ->
  filter P (source_lines s) = filter P (map strip (split NL s)).
Proof.
  intros H. destruct (strip_lines s) as (a & b & E).
  rewrite E, !filter_app, !(filter_repeat_nil P _ H), app_nil_r. reflexivity.
Qed.

Lemma load_frequency_words_lines (content : str) :
  load_frequency_words (FileContent content)
  = filter is_frequency_line (source_lines content).
Proof.
  unfold load_frequency_words, source_lines.
  destruct (strip content) as [|c s] eqn:E; reflexivity.
Qed.

Lemma first_char_cases (line : str) :
  (Z.b2z (truthy line)
   = Z.b2z (is_frequency_line line) + Z.b2z (startswith [BANG] line)
     + Z.b2z (startswith [PLUS] line) + Z.b2z (startswith [HASH] line))%Z.
Proof.
  destruct line as [|c line]; [reflexivity|].
  unfold is_frequency_line, HASH, BANG, PLUS. cbn [startswith truthy].
  destruct (N.eqb_spec 35 c), (N.eqb_spec 33 c), (N.eqb_spec 43 c);
    subst; try discriminate; reflexivity.
Qed.

Lemma len_filter_cons {A} (f : A -> bool) (x : A) (l : list A) :
  len (filter f (x :: l)) = Z.b2z (f x) + len (filter f l).
Proof.
  unfold len. simpl. destruct (f x); simpl length; simpl Z.b2z; lia.
Qed.

End LoaderFacts.

Lemma load_words_lines (content : str) :
  load_frequency_words (FileContent content)
    = filter is_frequency_line (map strip (split NL content)) /\
  load_filter_words (FileContent content)
    = map slice_from1
          (filter (startswith [BANG]) (map strip (split NL content))) /\
  load_must_words (FileContent content)
    = map slice_from1
          (filter (startswith [PLUS]) (map strip (split NL content))).
Proof.
  split; [|split].
  - rewrite load_frequency_words_lines. now apply filter_source_lines.
  - unfold load_filter_words, load_prefixed. fold (source_lines content).
    now rewrite filter_source_lines.
  - unfold load_must_words, load_prefixed. fold (source_lines content).
    now rewrite filter_source_lines.
Qed.

(** X8.  The three lists are determined by the stripped lines of the file
    as it is read: stripping the whole text first changes nothing.  Each
    list keeps the order of the lines and their repetitions. *)
Theorem loaders_read_stripped_lines (content : str) :
  let lines := map strip (split NL content) in
  load_frequency_words (FileContent content)
    = filter is_frequency_line lines /\
  load_filter_words (FileContent content)
    = map slice_from1 (filter (startswith [BANG]) lines) /\
  load_must_words (FileContent content)
    = map slice_from1 (filter (startswith [PLUS]) lines).
Proof. exact (load_words_lines content). Qed.

(** X9.  A frequency word read from the file is not empty, has no blank at
    either end and does not start with [#], [!] or [+]. *)
Theorem frequency_words_are_trimmed (content w : str) :
  In w (load_frequency_words (FileContent content)) ->
  w <> [] /\ strip w = w /\
  startswith [HASH] w = false /\
  startswith [BANG] w = false /\
  startswith [PLUS] w = false.
Proof.
  rewrite load_frequency_words_lines. intros H.
  apply filter_In in H as [Hin Hw].
  unfold source_lines in Hin. apply in_map_iff in Hin as (l & <- & _).
  unfold is_frequency_line in Hw.
  apply andb_true_iff in Hw as [Hw Hp]. apply andb_true_iff in Hw as [Hw Hb].
  apply andb_true_iff in Hw as [Ht Hh].
  apply negb_true_iff in Hp, Hb, Hh.
  repeat split; try assumption.
  - intros E. rewrite E in Ht. discriminate.
  - apply strip_idem.
Qed.

Lemma frequency_words_are_trimmed_witness :
  u "stock" <> [] /\ strip (u "stock") = u "stock" /\
  startswith [HASH] (u "stock") = false /\
  startswith [BANG] (u "stock") = false /\
  startswith [PLUS] (u "stock") = false.
Proof.
  apply (@frequency_words_are_trimmed
           (u "#c" ++ NL :: u "  stock  " ++ NL :: u "!x") (u "stock")).
  vm_compute. tauto.
Defined.

(** X10.  Every word of [filter_words] comes from a line of the file whose
    stripped form is [!] followed by that word, and has no blank at its
    end; likewise [must_words] and [+]. *)
Theorem prefixed_words_come_from_lines (prefix : char) (content w : str) :
  In w (load_prefixed prefix (FileContent content)) ->
  (exists l, In l (split NL content) /\ strip l = prefix :: w) /\
  rstrip w = w.
Proof.
  intros H.
  assert (Hsrc : In (prefix :: w) (map strip (split NL content))).
  { apply load_prefixed_sound in H.
    destruct (strip_lines content) as (a & b & E). rewrite E.
    apply in_or_app. right. apply in_or_app. now left. }
  apply in_map_iff in Hsrc as (l & El & Hl). split.
  - now exists l.
  - apply rstrip_tail with (c := prefix). rewrite <- El. apply strip_rstrip.
Qed.

Lemma prefixed_words_come_from_lines_witness :
  (exists l, In l (split NL Ex.words_file) /\ strip l = BANG :: u " foo") /\
  rstrip (u " foo") = u " foo".
Proof.
  apply (@prefixed_words_come_from_lines BANG Ex.words_file (u " foo")).
  vm_compute. tauto.
Defined.

(** X11.  Every line of the file that is not blank is counted once: it is
    a frequency word, a filter word, a must word or a comment. *)
Theorem lines_are_partitioned (content : str) :
  let lines := map strip (split NL content) in
  len (filter truthy lines)
  = len (load_frequency_words (FileContent content))
    + len (load_filter_words (FileContent content))
    + len (load_must_words (FileContent content))
    + len (filter (startswith [HASH]) lines).
Proof.
  intros lines.
  destruct (load_words_lines content) as (-> & -> & ->).
  fold lines. unfold len at 3 4. rewrite !length_map.
  fold (len (filter (startswith [BANG]) lines)).
  fold (len (filter (startswith [PLUS]) lines)).
  induction lines as [|l lines IH]; [reflexivity|].
  rewrite !len_filter_cons, IH. pose proof (first_char_cases l). lia.
Qed.

(* ================================================================= *)
(** ** [match_keywords]: the three outcomes, exactly *)

Section ClassifierFacts.

Variable lower : str -> str.
Variable self : TrendAnalyzer.

Lemma existsb_false_forall {A} (f : A -> bool) (l : list A) :
  existsb f l = false <-> forall x, In x l -> f x = false.
Proof.
  split.
  - intros H x Hin. destruct (f x) eqn:E; [|reflexivity].
    assert (existsb f l = true) by (apply existsb_exists; now exists x).
    congruence.
  - intros H. destruct (existsb f l) eqn:E; [|reflexivity].
    apply existsb_exists in E as (x & Hin & Hx). rewrite (H x Hin) in Hx.
    discriminate.
Qed.

Lemma filter_all {A} (f : A -> bool) (l : list A) :
  (forall x, In x l -> f x = true) -> filter f l = l.
Proof.
  induction l as [|x l IH]; intros H; [reflexivity|].
  simpl. rewrite (H x (or_introl eq_refl)). f_equal.
  apply IH. intros y Hy. apply H. now right.
Qed.

(** The outcome "accepted": the title passes the filter words and holds
    every must word. *)
Lemma match_keywords_accepted (t : str) :
  t <> [] ->
  (forall w, In w self.(filter_words) -> occurs_in lower t w = false) ->
  (forall w, In w self.(must_words) -> occurs_in lower t w = true) ->
  match_keywords lower self t
  = (filter (occurs_in lower t) self.(frequency_words), false).
Proof.
  intros Hne Hf Hm. unfold match_keywords.
  destruct t as [|c t]; [contradiction|]. cbn [truthy negb].
  apply existsb_false_forall in Hf. unfold occurs_in in Hf. rewrite Hf.
  pose proof (filter_all _ _ Hm) as Hall. unfold occurs_in in Hall.
  rewrite Hall, Z.ltb_irrefl, andb_false_r. reflexivity.
Qed.

(** When the outcome carries a keyword the title was accepted. *)
Lemma match_keywords_nonempty_accepted (t k : str) :
  In k (fst (match_keywords lower self t)) ->
  t <> [] /\
  (forall w, In w self.(filter_words) -> occurs_in lower t w = false) /\
  (forall w, In w self.(must_words) -> occurs_in lower t w = true).
Proof.
  unfold match_keywords.
  destruct t as [|c t]; [intros []|]. cbn [truthy negb].
  destruct (existsb _ _) eqn:Hf; [intros []|].
  destruct (truthy self.(must_words) && _) eqn:Hm; [intros []|].
  intros _. split; [discriminate|]. split.
  - apply existsb_false_forall. exact Hf.
  - apply andb_false_iff in Hm as [Hm|Hm].
    + apply truthy_false_nil in Hm. rewrite Hm. intros w [].
    + apply Z.ltb_ge in Hm. unfold len in Hm.
      pose proof (filter_length_le
                    (fun must_word => contains (lower must_word) (lower (c :: t)))
                    self.(must_words)) as Hle.
      assert (Hlen : length (filter (fun must_word =>
                        contains (lower must_word) (lower (c :: t)))
                        self.(must_words)) = length self.(must_words)) by lia.
      apply filter_length_forallb in Hlen.
      intros w Hw. unfold occurs_in.
      exact (proj1 (forallb_forall _ _) Hlen w Hw).
Qed.

End ClassifierFacts.

(** X12.  A title is reported as filtered exactly when it is not empty and
    some filter word occurs in it. *)
Theorem filtered_iff
        (lower : str -> str) (self : TrendAnalyzer) (t : str) :
  snd (match_keywords lower self t) = true <->
  t <> [] /\
  exists w, In w self.(filter_words) /\ occurs_in lower t w = true.
Proof.
  split.
  - unfold match_keywords. destruct t as [|c t]; [discriminate|].
    cbn [truthy negb]. destruct (existsb _ _) eqn:Hf.
    + intros _. split; [discriminate|].
      apply existsb_exists in Hf as (w & Hin & Hw). now exists w.
    + destruct (_ && _); discriminate.
  - intros (Hne & w & Hin & Hw).
    rewrite (match_keywords_filtered lower self Hne); [reflexivity|].
    apply existsb_exists. now exists w.
Qed.

(** X13.  For a title that is not empty, in which no filter word occurs
    and every must word occurs, the result is the list of the frequency
    words that occur in the title, in the order of [frequency_words] and
    with its repetitions, and the title is not filtered. *)
Theorem accepted_title_matches
        (lower : str -> str) (self : TrendAnalyzer) (t : str) :
  t <> [] ->
  (forall w, In w self.(filter_words) -> occurs_in lower t w = false) ->
  (forall w, In w self.(must_words) -> occurs_in lower t w = true) ->
  match_keywords lower self t
  = (filter (occurs_in lower t) self.(frequency_words), false).
Proof. apply match_keywords_accepted. Qed.

Lemma accepted_title_matches_witness :
  match_keywords ascii_lower
    (Ex.analyzer [u "Market"; u "AI"; u "oil"; u "ai"] [u "ad"] [u "stock"] [])
    (u "AI lifts the Stock Market")
  = ([u "Market"; u "AI"; u "ai"], false).
Proof.
  apply (@accepted_title_matches ascii_lower
           (Ex.analyzer [u "Market"; u "AI"; u "oil"; u "ai"]
                        [u "ad"] [u "stock"] [])
           (u "AI lifts the Stock Market")).
  - discriminate.
  - intros w [<-|[]]. reflexivity.
  - intros w [<-|[]]. reflexivity.
Defined.

(** X14.  A word is among the matched keywords of a title exactly when the
    title is not empty, no filter word occurs in it, every must word occurs
    in it, and the word is a frequency word that occurs in it. *)
Theorem matched_keyword_iff
        (lower : str -> str) (self : TrendAnalyzer) (t k : str) :
  In k (fst (match_keywords lower self t)) <->
  t <> [] /\
  (forall w, In w self.(filter_words) -> occurs_in lower t w = false) /\
  (forall w, In w self.(must_words) -> occurs_in lower t w = true) /\
  In k self.(frequency_words) /\
  occurs_in lower t k = true.
Proof.
  split.
  - intros H.
    destruct (match_keywords_nonempty_accepted lower self t k H)
      as (Hne & Hf & Hm).
    rewrite (match_keywords_accepted lower self Hne Hf Hm) in H.
    apply filter_In in H. tauto.
  - intros (Hne & Hf & Hm & Hin & Hk).
    rewrite (match_keywords_accepted lower self Hne Hf Hm).
    apply filter_In. now split.
Qed.

(** X15.  The classification looks at the title through [lower] only: two
    titles that are not empty and have the same lower-case form get the same
    result. *)
Theorem classification_ignores_title_case
        (lower : str -> str) (self : TrendAnalyzer) (t1 t2 : str) :
  t1 <> [] -> t2 <> [] -> lower t1 = lower t2 ->
  match_keywords lower self t1 = match_keywords lower self t2.
Proof.
  intros H1 H2 E. unfold match_keywords.
  destruct t1 as [|c1 t1]; [contradiction|].
  destruct t2 as [|c2 t2]; [contradiction|].
  cbn [truthy negb]. now rewrite E.
Qed.

Lemma classification_ignores_title_case_witness :
  match_keywords ascii_lower (Ex.analyzer [u "ai"] [u "AD"] [] [])
                 (u "AI News")
  = match_keywords ascii_lower (Ex.analyzer [u "ai"] [u "AD"] [] [])
                   (u "ai news").
Proof.
  apply (@classification_ignores_title_case ascii_lower
           (Ex.analyzer [u "ai"] [u "AD"] [] []) (u "AI News") (u "ai news"));
    [discriminate|discriminate|reflexivity].
Defined.


(* ================================================================= *)
(** ** [analyze_data]: counters, groups and ranking *)

Section AnalysisFacts.

Variable lower : str -> str.
Variable self : TrendAnalyzer.

Local Abbreviation step := (analyze_item lower self).
Local Abbreviation filtered := (is_filtered lower self).
Local Abbreviation matched := (is_matched lower self).
Local Abbreviation sizes :=
  (map (fun '(k, g) => (k, len g)) : dict (list Match) -> list (str * Z)).

Lemma sizes_update (k : str) (f : list Match -> list Match)
      (d : dict (list Match)) :
  (forall l, len (f l) = len l + 1) ->
  sum_counts (sizes (dict_update k f [] d)) = sum_counts (sizes d) + 1.
Proof.
  intros Hf. unfold sum_counts.
  induction d as [|[k' g] d IH]; simpl.
  - rewrite Hf. unfold len. simpl. lia.
  - destruct (str_eqb k k'); simpl; [rewrite Hf|rewrite IH]; lia.
Qed.

(** The class of a headline decides the branch of the loop. *)
Lemma analyze_item_classes (acc : Acc) (item : Item) :
  acc_filtered_count (step acc item)
  = acc_filtered_count acc + Z.b2z (filtered item) /\
  acc_matched_count (step acc item)
  = acc_matched_count acc + Z.b2z (matched item) /\
  sum_counts (sizes (acc_keyword_matches (step acc item)))
  = sum_counts (sizes (acc_keyword_matches acc)) + Z.b2z (matched item) /\
  Z.b2z (filtered item) + Z.b2z (matched item) <= 1.
Proof.
  unfold is_filtered, is_matched.
  destruct (analyze_item_cases lower self acc item)
    as [[Hf ->]|[[Hc ->]|(k & ks & Hc & ->)]].
  - rewrite Hf, (match_keywords_flag lower self _ Hf).
    cbn [acc_filtered_count acc_matched_count acc_keyword_matches truthy Z.b2z].
    lia.
  - rewrite Hc. cbn [fst snd truthy Z.b2z]. lia.
  - rewrite Hc.
    cbn [fst snd truthy Z.b2z acc_filtered_count acc_matched_count
         acc_keyword_matches].
    rewrite sizes_update; [lia|].
    intros l. unfold append_match, len. rewrite length_app. simpl. lia.
Qed.

Lemma analyze_counts (data : list Item) (acc : Acc) :
  let acc' := fold_left step data acc in
  acc_filtered_count acc'
  = acc_filtered_count acc + len (filter filtered data) /\
  acc_matched_count acc'
  = acc_matched_count acc + len (filter matched data) /\
  sum_counts (sizes (acc_keyword_matches acc'))
  = sum_counts (sizes (acc_keyword_matches acc)) + len (filter matched data) /\
  len (filter filtered data) + len (filter matched data) <= len data.
Proof.
  revert acc. induction data as [|item data IH]; intros acc acc'; subst acc'.
  - cbn [fold_left filter]. unfold len. simpl. lia.
  - cbn [fold_left].
    destruct (IH (step acc item)) as (H1 & H2 & H3 & H4).
    destruct (analyze_item_classes acc item) as (S1 & S2 & S3 & S4).
    rewrite H1, H2, H3, S1, S2, S3, !len_filter_cons.
    assert (len (item :: data) = 1 + len data).
    { unfold len. simpl length. lia. }
    lia.
Qed.

Lemma sum_counts_perm (l l' : list (str * Z)) :
  Permutation l l' -> sum_counts l = sum_counts l'.
Proof.
  unfold sum_counts. induction 1; simpl; lia.
Qed.

Lemma len_nonneg {A} (l : list A) : 0 <= len l.
Proof. unfold len. lia. Qed.

End AnalysisFacts.

(** X16.  The counters of the result: [total_items] is the number of
    headlines, [filtered_count] the number of headlines classified as
    filtered, [matched_count] the number of headlines with a keyword; no
    headline is counted in both, so the two never exceed [total_items]. *)
Theorem counts_by_class
        (lower : str -> str) (self : TrendAnalyzer) (now : datetime) :
  let r := analyze_data lower self now in
  r.(total_items) = len self.(all_data) /\
  r.(filtered_count) = len (filter (is_filtered lower self) self.(all_data)) /\
  r.(matched_count) = len (filter (is_matched lower self) self.(all_data)) /\
  0 <= r.(filtered_count) /\
  0 <= r.(matched_count) /\
  r.(matched_count) + r.(filtered_count) <= r.(total_items).
Proof.
  intros r. subst r. unfold analyze_data, analyze_loop.
  cbn [total_items filtered_count matched_count].
  destruct (analyze_counts lower self self.(all_data) acc0) as (H1 & H2 & _ & H4).
  rewrite H1, H2. cbn [acc0 acc_filtered_count acc_matched_count].
  pose proof (len_nonneg (filter (is_filtered lower self) self.(all_data))).
  pose proof (len_nonneg (filter (is_matched lower self) self.(all_data))).
  repeat split; lia.
Qed.

(** X17.  [matched_count] is the sum of the counts of the ranking, which is
    the sum of the sizes of the groups: every matched headline is in one
    group, once. *)
Theorem matched_count_is_sum_of_ranking
        (lower : str -> str) (self : TrendAnalyzer) (now : datetime) :
  let r := analyze_data lower self now in
  r.(matched_count) = sum_counts r.(sorted_keywords) /\
  r.(matched_count) = sum_counts r.(keyword_popularity) /\
  r.(matched_count)
  = sum_counts (map (fun '(k, g) => (k, len g)) r.(keyword_matches)).
Proof.
  intros r. subst r.
  assert (E : matched_count (analyze_data lower self now)
              = sum_counts (keyword_popularity (analyze_data lower self now))).
  { unfold analyze_data, analyze_loop, items.
    cbn [matched_count keyword_popularity].
    destruct (analyze_counts lower self self.(all_data) acc0)
      as (_ & H2 & H3 & _).
    rewrite H2, H3. reflexivity. }
  split; [|split].
  - rewrite E. symmetry. apply sum_counts_perm, ranking_perm.
  - exact E.
  - rewrite E. now rewrite popularity_is_group_size.
Qed.

Section GroupFacts.

Variable lower : str -> str.
Variable self : TrendAnalyzer.
Variable now : datetime.

Local Abbreviation result := (analyze_data lower self now).
Local Abbreviation loop_groups :=
  (acc_keyword_matches (analyze_loop lower self self.(all_data))).

Lemma dict_get_In {V} (d : dict V) (k : str) (v : V) :
  dict_get k d = Some v -> In (k, v) d.
Proof.
  induction d as [|[k' v'] d IH]; simpl; [discriminate|].
  destruct (str_eqb k k') eqn:E.
  - apply str_eqb_eq in E. subst k'. intros [= ->]. now left.
  - intros H. right. now apply IH.
Qed.

Lemma In_dict_get {V} (d : dict V) (k : str) (v : V) :
  NoDup (keys d) -> In (k, v) d -> dict_get k d = Some v.
Proof.
  unfold keys. induction d as [|[k' v'] d IH]; intros Hnd Hin; [contradiction|].
  simpl in Hnd. apply NoDup_cons_iff in Hnd as [Hnin Hnd]. simpl.
  destruct Hin as [Hin|Hin].
  - injection Hin as -> ->. now rewrite str_eqb_refl.
  - destruct (str_eqb k k') eqn:E.
    + apply str_eqb_eq in E. subst k'. elim Hnin.
      change k with (fst (k, v)). now apply in_map.
    + now apply IH.
Qed.

Lemma dict_update_Forall {V} (P : str * V -> Prop) (k : str) (f : V -> V)
      (dflt : V) (d : dict V) :
  (forall k' v, P (k', f v)) -> Forall P d -> Forall P (dict_update k f dflt d).
Proof.
  intros Hf. induction 1 as [|[k' v] d Hx Hd IH]; simpl.
  - constructor; [apply Hf|constructor].
  - destruct (str_eqb k k'); constructor; auto.
Qed.

(** No key is created without a match: no group is empty. *)
Lemma analyze_groups_nonempty (data : list Item) (acc : Acc) :
  Forall (fun kv => snd kv <> []) acc.(acc_keyword_matches) ->
  Forall (fun kv => snd kv <> [])
         (acc_keyword_matches (fold_left (analyze_item lower self) data acc)).
Proof.
  revert acc. induction data as [|item data IH]; intros acc H; [exact H|].
  simpl fold_left. apply IH. rewrite analyze_item_keyword_matches.
  destruct (primary_keyword lower self item) as [k|]; [|exact H].
  apply dict_update_Forall; [|exact H].
  intros k' v. unfold append_match. simpl. now destruct v.
Qed.

Lemma fold_add_key_In (l ks : list str) (k : str) :
  In k (fold_left add_key l ks) <-> In k ks \/ In k l.
Proof.
  revert ks. induction l as [|x l IH]; intros ks; simpl; [tauto|].
  rewrite IH, add_key_In. intuition.
Qed.

Lemma loop_keys :
  keys loop_groups
  = fold_left add_key (primary_keywords lower self self.(all_data)) [].
Proof. unfold analyze_loop. now rewrite analyze_keys. Qed.

Lemma loop_keys_NoDup : NoDup (keys loop_groups).
Proof. rewrite loop_keys. apply fold_add_key_NoDup. constructor. Qed.

Lemma loop_keys_In (k : str) :
  In k (keys loop_groups)
  <-> In k (primary_keywords lower self self.(all_data)).
Proof. rewrite loop_keys, fold_add_key_In. simpl. tauto. Qed.

Lemma loop_group (k : str) :
  get (dict_get k loop_groups) [] = matches_of lower self k self.(all_data).
Proof.
  unfold analyze_loop.
  now rewrite (analyze_group lower self k self.(all_data) acc0).
Qed.

Lemma result_keys : keys result.(keyword_matches) = keys loop_groups.
Proof.
  unfold analyze_data. cbn [keyword_matches]. unfold keys.
  rewrite map_map. apply map_ext. now intros [k g].
Qed.

Lemma primary_keyword_in_frequency (item : Item) (k : str) :
  primary_keyword lower self item = Some k -> In k self.(frequency_words).
Proof.
  unfold primary_keyword.
  destruct (fst (match_keywords lower self (get item.(title) []))) as [|p ks] eqn:E;
    [discriminate|]. intros [= ->].
  apply match_keywords_head in E as [_ Hfind].
  now apply find_some in Hfind.
Qed.

Lemma primary_keywords_In (data : list Item) (k : str) :
  In k (primary_keywords lower self data)
  <-> exists item, In item data /\ primary_keyword lower self item = Some k.
Proof.
  unfold primary_keywords. rewrite in_flat_map. split.
  - intros (item & Hin & Hk). exists item. split; [exact Hin|].
    destruct (primary_keyword lower self item) as [p|]; [|contradiction].
    destruct Hk as [->|[]]. reflexivity.
  - intros (item & Hin & Hk). exists item. split; [exact Hin|].
    rewrite Hk. now left.
Qed.

Lemma matches_of_In (data : list Item) (k : str) (m : Match) :
  In m (matches_of lower self k data)
  <-> exists item,
        In item data /\ primary_keyword lower self item = Some k /\
        m = make_match item (get item.(title) [])
              (fst (match_keywords lower self (get item.(title) []))).
Proof.
  unfold matches_of, primary_keyword. rewrite in_flat_map. split.
  - intros (item & Hin & Hm). exists item. split; [exact Hin|].
    destruct (fst (match_keywords lower self (get item.(title) [])))
      as [|p ks]; [contradiction|].
    destruct (str_eqb p k) eqn:E; [|contradiction].
    apply str_eqb_eq in E. subst p. destruct Hm as [<-|[]]. now split.
  - intros (item & Hin & Hk & ->). exists item. split; [exact Hin|].
    destruct (fst (match_keywords lower self (get item.(title) [])))
      as [|p ks]; [discriminate|].
    injection Hk as ->. rewrite str_eqb_refl. now left.
Qed.

(** The pairs of [keyword_popularity]: the primary keywords that occur,
    each with the number of headlines that have it. *)
Lemma popularity_In (k : str) (c : Z) :
  In (k, c) result.(keyword_popularity)
  <-> In k (primary_keywords lower self self.(all_data)) /\
      c = len (matches_of lower self k self.(all_data)).
Proof.
  unfold analyze_data. cbn [keyword_popularity]. unfold items.
  rewrite in_map_iff. split.
  - intros ([k' g] & E & Hin). injection E as -> <-.
    split.
    + apply loop_keys_In. unfold keys.
      change k with (fst (k, g)). now apply in_map.
    + rewrite <- loop_group.
      now rewrite (In_dict_get _ _ _ loop_keys_NoDup Hin).
  - intros (Hk & ->). apply loop_keys_In in Hk.
    unfold keys in Hk. apply in_map_iff in Hk as ([k' g] & Ek & Hin).
    simpl in Ek. subst k'. exists (k, g). split; [|exact Hin].
    rewrite <- loop_group.
    now rewrite (In_dict_get _ _ _ loop_keys_NoDup Hin).
Qed.

Lemma result_group_nonempty (k : str) (g : list Match) :
  In (k, g) result.(keyword_matches) -> g <> [].
Proof.
  unfold analyze_data. cbn [keyword_matches]. intros H.
  apply in_map_iff in H as ([k' g0] & E & Hin). injection E as -> <-.
  assert (Hne : g0 <> []).
  { pose proof (analyze_groups_nonempty self.(all_data) acc0
                  (Forall_nil _)) as HF.
    rewrite Forall_forall in HF. exact (HF _ Hin). }
  intros E. apply Hne. change (sort_asc m_rank g0 = []) in E.
  pose proof (sort_asc_perm m_rank g0) as Hp. rewrite E in Hp.
  now apply Permutation_nil in Hp.
Qed.

End GroupFacts.

(** X18.  The ranking and the groups agree: a pair (keyword, count) is in
    [sorted_keywords] exactly when [keyword_matches] holds a group for the
    keyword, of that size; the group is not empty.  So the look-ups
    [result['keyword_matches'][keyword]] of the report builders, made for
    the keywords of [sorted_keywords], find their key. *)
Theorem ranked_keyword_has_group
        (lower : str -> str) (self : TrendAnalyzer) (now : datetime)
        (k : str) (c : Z) :
  let r := analyze_data lower self now in
  In (k, c) r.(sorted_keywords) <->
  exists g, dict_get k r.(keyword_matches) = Some g /\ len g = c /\ g <> [].
Proof.
  intros r. subst r.
  assert (Hnd : NoDup (keys (keyword_matches (analyze_data lower self now)))).
  { rewrite result_keys. apply loop_keys_NoDup. }
  split.
  - intros H. apply (Permutation_in _ (ranking_perm lower self now)) in H.
    rewrite popularity_is_group_size in H.
    apply in_map_iff in H as ([k' g] & E & Hin). injection E as -> <-.
    exists g. split; [now apply In_dict_get|]. split; [reflexivity|].
    now apply (result_group_nonempty lower self now k).
  - intros (g & Hg & <- & _). apply dict_get_In in Hg.
    apply (Permutation_in _ (Permutation_sym (ranking_perm lower self now))).
    rewrite popularity_is_group_size.
    apply in_map_iff. now exists (k, g).
Qed.

(** X19.  The group of a keyword is in ascending order of rank; it holds
    the matches of the headlines whose primary keyword it is, each once, and
    matches of equal rank keep the order of [all_data]. *)
Theorem group_is_sorted_by_rank
        (lower : str -> str) (self : TrendAnalyzer) (now : datetime) (k : str) :
  let g := get (dict_get k (keyword_matches (analyze_data lower self now))) [] in
  StronglySorted (fun a b => m_rank a <= m_rank b) g /\
  Permutation g (matches_of lower self k self.(all_data)) /\
  forall c, filter (key_is m_rank c) g
            = filter (key_is m_rank c) (matches_of lower self k self.(all_data)).
Proof.
  intros g. subst g. rewrite keyword_group. split; [|split].
  - apply sorted_ascending.
  - apply sorted_perm.
  - intros c. apply sorted_stable.
Qed.

(** X20.  A match is in the group of a keyword exactly when it was built
    from a headline of [all_data] whose primary keyword is that keyword; so
    a headline that is filtered, rejected or without keyword is in no group,
    and a matched headline is in the group of its primary keyword only. *)
Theorem group_members
        (lower : str -> str) (self : TrendAnalyzer) (now : datetime)
        (k : str) (m : Match) :
  In m (get (dict_get k (keyword_matches (analyze_data lower self now))) [])
  <-> exists item,
        In item self.(all_data) /\
        primary_keyword lower self item = Some k /\
        m = make_match item (get item.(title) [])
              (fst (match_keywords lower self (get item.(title) []))).
Proof.
  rewrite keyword_group, <- matches_of_In. split; intros H.
  - exact (Permutation_in _ (sorted_perm m_rank false _) H).
  - exact (Permutation_in _ (Permutation_sym (sorted_perm m_rank false _)) H).
Qed.

(** X21.  There is at most one group for a keyword, every key of
    [keyword_matches] is a frequency word, and so there are no more groups
    than frequency words; [keyword_popularity] has the same keys in the same
    order. *)
Theorem one_group_per_frequency_word
        (lower : str -> str) (self : TrendAnalyzer) (now : datetime) :
  let r := analyze_data lower self now in
  NoDup (keys r.(keyword_matches)) /\
  (forall k, In k (keys r.(keyword_matches)) -> In k self.(frequency_words)) /\
  len r.(keyword_matches) <= len self.(frequency_words) /\
  keys r.(keyword_popularity) = keys r.(keyword_matches).
Proof.
  intros r. subst r.
  assert (Hnd : NoDup (keys (keyword_matches (analyze_data lower self now)))).
  { rewrite result_keys. apply loop_keys_NoDup. }
  assert (Hin : forall k,
             In k (keys (keyword_matches (analyze_data lower self now))) ->
             In k self.(frequency_words)).
  { intros k Hk. rewrite result_keys in Hk. apply loop_keys_In in Hk.
    apply primary_keywords_In in Hk as (item & _ & Hp).
    now apply primary_keyword_in_frequency in Hp. }
  split; [exact Hnd|]. split; [exact Hin|]. split.
  - pose proof (NoDup_incl_length Hnd Hin) as Hle.
    unfold keys in Hle. rewrite length_map in Hle. unfold len. lia.
  - rewrite popularity_is_group_size. unfold keys. rewrite map_map.
    apply map_ext. now intros [k g].
Qed.

(* ================================================================= *)
(** ** [platform_stats], the case of no match, the order of the headlines *)

Section CounterFacts.

Lemma sum_counts_succ (k : str) (d : dict Z) :
  sum_counts (dict_update k Z.succ 0 d) = sum_counts d + 1.
Proof.
  unfold sum_counts. induction d as [|[k' v] d IH]; simpl; [reflexivity|].
  destruct (str_eqb k k'); simpl; lia.
Qed.

Lemma dict_update_Forall_step {V} (P : str * V -> Prop) (k : str)
      (f : V -> V) (dflt : V) (d : dict V) :
  (forall k' v, P (k', v) -> P (k', f v)) -> P (k, f dflt) ->
  Forall P d -> Forall P (dict_update k f dflt d).
Proof.
  intros Hf H0. induction 1 as [|[k' v] d Hx Hd IH]; simpl.
  - constructor; [exact H0|constructor].
  - destruct (str_eqb k k'); constructor; auto.
Qed.

Lemma counter_fold (l : list str) (d : dict Z) (p : str) :
  let d' := fold_left (fun d k => dict_update k Z.succ 0 d) l d in
  get (dict_get p d') 0
  = get (dict_get p d) 0 + len (filter (fun n => str_eqb n p) l) /\
  sum_counts d' = sum_counts d + len l /\
  keys d' = fold_left add_key l (keys d) /\
  (Forall (fun kv => 1 <= snd kv) d -> Forall (fun kv => 1 <= snd kv) d').
Proof.
  revert d. induction l as [|k l IH]; intros d d'; subst d'.
  - cbn [fold_left filter]. unfold len. simpl. repeat split; auto; lia.
  - cbn [fold_left].
    destruct (IH (dict_update k Z.succ 0 d)) as (H1 & H2 & H3 & H4).
    rewrite H1, H2, H3, sum_counts_succ, keys_dict_update, len_filter_cons.
    assert (Hl : len (k :: l) = 1 + len l) by (unfold len; simpl length; lia).
    rewrite Hl. repeat split; try lia.
    + destruct (str_eqb k p) eqn:E.
      * apply str_eqb_eq in E. subst k. rewrite dict_get_update_same.
        cbn [get Z.b2z]. lia.
      * apply str_eqb_neq in E.
        rewrite dict_get_update_other by congruence. cbn [Z.b2z]. lia.
    + intros HF. apply H4. apply dict_update_Forall_step; [| |exact HF].
      * intros k' v Hv. simpl in *. lia.
      * simpl. lia.
Qed.

Lemma len_filter_map {A B} (f : B -> bool) (g : A -> B) (l : list A) :
  len (filter f (map g l)) = len (filter (fun x => f (g x)) l).
Proof.
  induction l as [|x l IH]; [reflexivity|].
  cbn [map]. now rewrite !len_filter_cons, IH.
Qed.

Lemma perm_len_filter {A} (f : A -> bool) (l l' : list A) :
  Permutation l l' -> len (filter f l) = len (filter f l').
Proof.
  induction 1 as [|x l l' Hp IH|x y l|l l' l'' H1 IH1 H2 IH2].
  - reflexivity.
  - now rewrite !len_filter_cons, IH.
  - rewrite !len_filter_cons. lia.
  - congruence.
Qed.

Lemma sum_sizes_zero {V} (d : dict (list V)) :
  Forall (fun kv => snd kv <> []) d ->
  sum_counts (map (fun '(k, g) => (k, len g)) d) = 0 -> d = [].
Proof.
  intros HF. destruct d as [|[k g] d]; [reflexivity|].
  apply Forall_cons_iff in HF as [Hg _]. simpl in Hg.
  unfold sum_counts. simpl. intros H. exfalso.
  assert (H0 : 0 <= fold_right Z.add 0
                      (map snd (map (fun '(k0, g0) => (k0, len g0)) d))).
  { clear. induction d as [|[k g] d IH]; simpl; [lia|].
    pose proof (len_nonneg g). lia. }
  assert (1 <= len g).
  { unfold len. destruct g; [contradiction|simpl; lia]. }
  lia.
Qed.

End CounterFacts.

Section ResultFacts.

Variable lower : str -> str.
Variable self : TrendAnalyzer.
Variable now : datetime.

Local Abbreviation result := (analyze_data lower self now).

Lemma result_counts :
  result.(total_items) = len self.(all_data) /\
  result.(filtered_count)
  = len (filter (is_filtered lower self) self.(all_data)) /\
  result.(matched_count)
  = len (filter (is_matched lower self) self.(all_data)) /\
  result.(matched_count)
  = sum_counts (map (fun '(k, g) => (k, len g)) result.(keyword_matches)).
Proof.
  assert (E : matched_count result = sum_counts (keyword_popularity result)).
  { unfold analyze_data, analyze_loop, items.
    cbn [matched_count keyword_popularity].
    destruct (analyze_counts lower self self.(all_data) acc0)
      as (_ & H2 & H3 & _).
    rewrite H2, H3. reflexivity. }
  split; [reflexivity|].
  rewrite <- popularity_is_group_size, <- E.
  unfold analyze_data, analyze_loop.
  cbn [filtered_count matched_count].
  destruct (analyze_counts lower self self.(all_data) acc0) as (H1 & H2 & _).
  rewrite H1, H2. cbn [acc0 acc_filtered_count acc_matched_count].
  repeat split; lia.
Qed.

Lemma result_groups_nonempty :
  Forall (fun kv => snd kv <> []) result.(keyword_matches).
Proof.
  apply Forall_forall. intros [k g] Hin.
  now apply (result_group_nonempty lower self now k).
Qed.

Lemma result_platform (p : str) :
  get (dict_get p result.(platform_stats)) 0
  = len (filter (on_platform p) self.(all_data)).
Proof.
  unfold analyze_data. cbn [platform_stats]. unfold Counter.
  destruct (counter_fold (map platform_name self.(all_data)) [] p)
    as (H1 & _).
  rewrite H1, len_filter_map. reflexivity.
Qed.

End ResultFacts.

(** X22.  [platform_stats] counts the headlines of each platform: the
    count kept for a platform is the number of headlines with that
    [platform_name] (0 when the platform has no entry), an entry is at least
    1, no platform has two entries, and the counts add up to
    [total_items]. *)
Theorem platform_stats_count_headlines
        (lower : str -> str) (self : TrendAnalyzer) (now : datetime) (p : str) :
  let r := analyze_data lower self now in
  get (dict_get p r.(platform_stats)) 0
  = len (filter (on_platform p) self.(all_data)) /\
  (forall c, In (p, c) r.(platform_stats) -> 1 <= c) /\
  NoDup (keys r.(platform_stats)) /\
  sum_counts r.(platform_stats) = r.(total_items).
Proof.
  intros r. subst r. split; [apply result_platform|].
  unfold analyze_data. cbn [platform_stats total_items]. unfold Counter.
  destruct (counter_fold (map platform_name self.(all_data)) [] p)
    as (_ & H2 & H3 & H4).
  split; [|split].
  - intros c Hin. specialize (H4 (Forall_nil _)).
    rewrite Forall_forall in H4. exact (H4 _ Hin).
  - rewrite H3. apply fold_add_key_NoDup. constructor.
  - rewrite H2. unfold len, sum_counts. rewrite length_map. simpl. lia.
Qed.

(** X23.  The result has no groups exactly when no headline matched, and
    then the ranking is empty too: the test [if not result['keyword_matches']]
    of the report builders is the test [matched_count == 0]. *)
Theorem no_groups_iff_no_match
        (lower : str -> str) (self : TrendAnalyzer) (now : datetime) :
  let r := analyze_data lower self now in
  (r.(keyword_matches) = [] <-> r.(matched_count) = 0) /\
  (r.(sorted_keywords) = [] <-> r.(matched_count) = 0).
Proof.
  intros r. subst r.
  destruct (result_counts lower self now) as (_ & _ & _ & Hsum).
  assert (H1 : keyword_matches (analyze_data lower self now) = []
               <-> matched_count (analyze_data lower self now) = 0).
  { split.
    - intros E. rewrite Hsum, E. reflexivity.
    - intros E. rewrite Hsum in E.
      exact (sum_sizes_zero (result_groups_nonempty lower self now) E). }
  split; [exact H1|].
  rewrite <- H1. pose proof (ranking_perm lower self now) as Hp.
  rewrite popularity_is_group_size in Hp. split; intros E.
  - rewrite E in Hp. apply Permutation_nil in Hp.
    destruct (keyword_matches (analyze_data lower self now));
      [reflexivity|discriminate].
  - rewrite E in Hp. simpl in Hp. apply Permutation_sym in Hp.
    now apply Permutation_nil in Hp.
Qed.

(** X24.  The order of the headlines matters for ties only: for the same
    headlines in another order the counters are the same, the ranking holds
    the same pairs, every group holds the same matches and every platform
    has the same count. *)
Theorem analysis_up_to_headline_order
        (lower : str -> str) (self : TrendAnalyzer) (data' : list Item)
        (now : datetime) :
  Permutation self.(all_data) data' ->
  let r := analyze_data lower self now in
  let r' := analyze_data lower (set_all_data self data') now in
  r'.(total_items) = r.(total_items) /\
  r'.(matched_count) = r.(matched_count) /\
  r'.(filtered_count) = r.(filtered_count) /\
  Permutation r'.(sorted_keywords) r.(sorted_keywords) /\
  (forall k, Permutation (get (dict_get k r'.(keyword_matches)) [])
                         (get (dict_get k r.(keyword_matches)) [])) /\
  (forall p, get (dict_get p r'.(platform_stats)) 0
             = get (dict_get p r.(platform_stats)) 0).
Proof.
  intros Hp r r'. subst r r'.
  destruct (result_counts lower self now) as (T & F & M & _).
  destruct (result_counts lower (set_all_data self data') now)
    as (T' & F' & M' & _).
  cbn [all_data set_all_data] in T', F', M'.
  change (is_filtered lower (set_all_data self data'))
    with (is_filtered lower self) in F'.
  change (is_matched lower (set_all_data self data'))
    with (is_matched lower self) in M'.
  assert (Hm : forall k, Permutation
                 (matches_of lower self k data')
                 (matches_of lower self k self.(all_data))).
  { intros k. unfold matches_of. apply Permutation_flat_map.
    now apply Permutation_sym. }
  assert (Hk : Permutation (primary_keywords lower self data')
                           (primary_keywords lower self self.(all_data))).
  { unfold primary_keywords. apply Permutation_flat_map.
    now apply Permutation_sym. }
  split; [rewrite T, T'; unfold len; now rewrite (Permutation_length Hp)|].
  split; [rewrite M, M'; symmetry; now apply perm_len_filter|].
  split; [rewrite F, F'; symmetry; now apply perm_len_filter|].
  split; [|split].
  - rewrite (ranking_perm lower (set_all_data self data') now).
    rewrite (ranking_perm lower self now).
    apply NoDup_Permutation.
    + eapply NoDup_map_inv. apply popularity_keys_NoDup.
    + eapply NoDup_map_inv. apply popularity_keys_NoDup.
    + intros [k c]. rewrite !popularity_In.
      cbn [all_data set_all_data].
      change (primary_keywords lower (set_all_data self data'))
        with (primary_keywords lower self).
      change (matches_of lower (set_all_data self data'))
        with (matches_of lower self).
      unfold len. rewrite (Permutation_length (Hm k)).
      split; intros [H1 H2]; (split; [|exact H2]).
      * exact (Permutation_in _ Hk H1).
      * exact (Permutation_in _ (Permutation_sym Hk) H1).
  - intros k. rewrite !keyword_group. cbn [all_data set_all_data].
    change (matches_of lower (set_all_data self data'))
      with (matches_of lower self).
    rewrite !sorted_perm. apply Hm.
  - intros p. rewrite !result_platform. cbn [all_data set_all_data].
    symmetry. now apply perm_len_filter.
Qed.

Lemma analysis_up_to_headline_order_witness :
  let self := Ex.analyzer [u "AI"; u "stock"] [u "ad"] []
                [Ex.headline "stock market" 2 "Y";
                 Ex.headline "an ad" 3 "Y";
                 Ex.headline "AI breakthrough" 1 "X"] in
  let data' := [Ex.headline "AI breakthrough" 1 "X";
                Ex.headline "stock market" 2 "Y";
                Ex.headline "an ad" 3 "Y"] in
  let r := analyze_data ascii_lower self Ex.now in
  let r' := analyze_data ascii_lower (set_all_data self data') Ex.now in
  r'.(total_items) = r.(total_items) /\
  r'.(matched_count) = r.(matched_count) /\
  r'.(filtered_count) = r.(filtered_count) /\
  Permutation r'.(sorted_keywords) r.(sorted_keywords) /\
  (forall k, Permutation (get (dict_get k r'.(keyword_matches)) [])
                         (get (dict_get k r.(keyword_matches)) [])) /\
  (forall p, get (dict_get p r'.(platform_stats)) 0
             = get (dict_get p r.(platform_stats)) 0).
Proof.
  apply (@analysis_up_to_headline_order ascii_lower
           (Ex.analyzer [u "AI"; u "stock"] [u "ad"] []
              [Ex.headline "stock market" 2 "Y";
               Ex.headline "an ad" 3 "Y";
               Ex.headline "AI breakthrough" 1 "X"])
           [Ex.headline "AI breakthrough" 1 "X";
            Ex.headline "stock market" 2 "Y";
            Ex.headline "an ad" 3 "Y"] Ex.now).
  cbn [all_data Ex.analyzer].
  apply Permutation_sym. apply (Permutation_cons_app [_; _] []).
  reflexivity.
Defined.

(** X25.  The title shown in the chat report is never longer than 63
    characters: a title of at most 60 characters is shown as it is, a longer
    one as its first 60 characters followed by three dots. *)
Theorem title_preview_bounded (t : str) :
  len (title_preview t) <= 63 /\
  firstn 60 (title_preview t) = firstn 60 t /\
  (len t <= 60 -> title_preview t = t) /\
  (60 < len t ->
   title_preview t = firstn 60 t ++ u "..." /\ len (title_preview t) = 63).
Proof.
  unfold title_preview. destruct (Z.gtb_spec (len t) 60) as [Hgt|Hle].
  - assert (Hl : length (firstn 60 t) = 60%nat).
    { rewrite length_firstn. unfold len in Hgt. lia. }
    assert (Hlen : len (firstn 60 t ++ u "...") = 63).
    { unfold len. rewrite length_app, Hl. reflexivity. }
    repeat split; try lia.
    rewrite firstn_app, Hl, Nat.sub_diag, firstn_O, app_nil_r, firstn_firstn.
    now rewrite Nat.min_id.
  - repeat split; try lia.
Qed.

(* ================================================================= *)
(** ** [fetch_platform_data]: ranks and titles of the entries kept *)

Section FetchFacts.

Variable py_str : json -> str.
Variable clean_body : str -> str.
Variable clock : Z -> datetime.
Variable platform_id : str.

Local Abbreviation process := (process_items py_str clean_body clock platform_id).
Local Abbreviation fetch := (fetch_platform_data py_str clean_body clock platform_id).

Lemma process_items_some (entries : list json) (i : Z) (results : list Processed) :
  process i entries = Some results ->
  (forall p, In p results ->
     p_title p <> [] /\ p_platform_id p = platform_id /\
     exists n, nth_error entries n = Some (p_raw_data p) /\
               p_rank p = i + Z.of_nat n) /\
  StronglySorted (fun a b => p_rank a < p_rank b) results /\
  (length results <= length entries)%nat.
Proof.
  revert i results. induction entries as [|x entries IH]; intros i results H.
  - injection H as <-. split; [intros p []|]. split; [constructor|auto].
  - destruct x as [| | | | |item]; try discriminate H.
    cbn [process_items] in H.
    destruct (process (i + 1) entries) as [rs|] eqn:E; [|discriminate].
    destruct (IH _ _ E) as (Hin & Hs & Hl). injection H as <-.
    assert (Hshift : forall p, In p rs ->
              p_title p <> [] /\ p_platform_id p = platform_id /\
              exists n, nth_error (JDict item :: entries) n
                        = Some (p_raw_data p) /\
                        p_rank p = i + Z.of_nat n).
    { intros p Hp. destruct (Hin p Hp) as (Ht & Hid & n & Hn & Hr).
      repeat split; try assumption. exists (S n). split; [exact Hn|lia]. }
    destruct (truthy _) eqn:Ht.
    + split; [|split].
      * intros p [<-|Hp]; [|now apply Hshift].
        cbn [p_title p_platform_id p_raw_data p_rank].
        split; [intros E0; rewrite E0 in Ht; discriminate|].
        split; [reflexivity|]. exists 0%nat. split; [reflexivity|lia].
      * constructor; [exact Hs|]. apply Forall_forall. intros p Hp.
        destruct (Hin p Hp) as (_ & _ & n & _ & Hr). cbn [p_rank]. lia.
      * simpl. lia.
    + split; [exact Hshift|]. split; [exact Hs|]. simpl. lia.
Qed.

Lemma process_items_none (entries : list json) (i : Z) (x : json) :
  In x entries -> is_object x = false -> process i entries = None.
Proof.
  revert i. induction entries as [|y entries IH]; intros i Hin Hx;
    [contradiction|].
  destruct Hin as [->|Hin].
  - destruct x; try reflexivity. discriminate.
  - destruct y; try reflexivity. cbn [process_items].
    now rewrite (IH (i + 1) Hin Hx).
Qed.

Lemma nth_error_firstn_some {A} (n k : nat) (l : list A) (x : A) :
  nth_error (firstn k l) n = Some x -> (n < k)%nat /\ nth_error l n = Some x.
Proof.
  revert n l. induction k as [|k IH]; intros n l H.
  - destruct n; discriminate.
  - destruct l as [|y l]; [destruct n; discriminate|].
    destruct n as [|n]; simpl in *; [split; [lia|exact H]|].
    apply IH in H as [H1 H2]. split; [lia|exact H2].
Qed.

(** What is returned comes from the loop over the first 50 entries. *)
Lemma fetch_results (response : option json) :
  fetch response = [] \/
  exists data feed,
    response = Some data /\ news_list data = Some (JList feed) /\
    process 1 (firstn MAX_RESULTS_PER_PLATFORM feed) = Some (fetch response).
Proof.
  unfold fetch_platform_data. destruct response as [data|]; [|now left].
  destruct (news_list data) as [[| | | |feed|]|] eqn:E; try now left.
  destruct (process 1 (firstn MAX_RESULTS_PER_PLATFORM feed)) eqn:P;
    [|now left].
  right. now exists data, feed.
Qed.

End FetchFacts.

(** X26.  An entry kept from a feed has a title that is not empty, and its
    rank is its position in the feed counted from 1, between 1 and 50:
    entries dropped for an empty title still take their rank. *)
Theorem fetched_entry_rank
        (py_str : json -> str) (clean_body : str -> str) (clock : Z -> datetime)
        (platform_id : str) (data : json) (feed : list json) (p : Processed) :
  news_list data = Some (JList feed) ->
  In p (fetch_platform_data py_str clean_body clock platform_id (Some data)) ->
  1 <= p_rank p <= 50 /\
  nth_error feed (Z.to_nat (p_rank p - 1)) = Some (p_raw_data p) /\
  p_title p <> [] /\
  p_platform_id p = platform_id.
Proof.
  intros Hn Hin. unfold fetch_platform_data in Hin. rewrite Hn in Hin.
  destruct (process_items py_str clean_body clock platform_id 1
              (firstn MAX_RESULTS_PER_PLATFORM feed)) as [rs|] eqn:E;
    [|contradiction].
  destruct (process_items_some _ _ _ _ _ _ E) as (H & _ & _).
  destruct (H p Hin) as (Ht & Hid & n & Hnth & Hr).
  apply nth_error_firstn_some in Hnth as [Hlt Hnth].
  unfold MAX_RESULTS_PER_PLATFORM in Hlt.
  replace (Z.to_nat (p_rank p - 1)) with n by lia.
  repeat split; try assumption; lia.
Qed.

Lemma fetched_entry_rank_witness :
  let item (t : string) := JDict [(u "title", JStr (u t))] in
  let p := {| p_title := u "third";
              p_url := JStr [];
              p_rank := 3;
              p_platform_id := u "weibo";
              p_timestamp := Ex.now;
              p_raw_data := item "third"%string |} in
  1 <= p_rank p <= 50 /\
  nth_error [item "first"%string; item "  "%string; item "third"%string] (Z.to_nat (p_rank p - 1))
    = Some (p_raw_data p) /\
  p_title p <> [] /\
  p_platform_id p = u "weibo".
Proof.
  intros item p.
  apply (@fetched_entry_rank (fun _ => []) (fun s => s) (fun _ => Ex.now)
           (u "weibo")
           (JDict [(u "data", JList [item "first"%string; item "  "%string; item "third"%string])])
           [item "first"%string; item "  "%string; item "third"%string] p).
  - reflexivity.
  - vm_compute. right. left. reflexivity.
Defined.

(** X27.  Whatever the answer of the platform is, at most 50 entries are
    returned, their ranks increase strictly, and none has an empty title. *)
Theorem fetched_list_shape
        (py_str : json -> str) (clean_body : str -> str) (clock : Z -> datetime)
        (platform_id : str) (response : option json) :
  let results :=
    fetch_platform_data py_str clean_body clock platform_id response in
  len results <= 50 /\
  StronglySorted (fun a b => p_rank a < p_rank b) results /\
  Forall (fun p => p_title p <> []) results.
Proof.
  intros results. subst results.
  destruct (fetch_results py_str clean_body clock platform_id response)
    as [->|(data & feed & _ & _ & P)].
  - repeat split; [unfold len; simpl; lia|constructor|constructor].
  - destruct (process_items_some _ _ _ _ _ _ P) as (H & Hs & Hl).
    split; [|split].
    + rewrite length_firstn in Hl. unfold MAX_RESULTS_PER_PLATFORM in Hl.
      unfold len. lia.
    + exact Hs.
    + apply Forall_forall. intros p Hp. now destruct (H p Hp).
Qed.

(** X28.  One entry that is not an object among the first 50 entries of a
    feed loses the whole feed: nothing is returned for the platform. *)
Theorem malformed_entry_discards_feed
        (py_str : json -> str) (clean_body : str -> str) (clock : Z -> datetime)
        (platform_id : str) (data : json) (feed : list json) (x : json) :
  news_list data = Some (JList feed) ->
  In x (firstn MAX_RESULTS_PER_PLATFORM feed) ->
  is_object x = false ->
  fetch_platform_data py_str clean_body clock platform_id (Some data) = [].
Proof.
  intros Hn Hin Hx. unfold fetch_platform_data. rewrite Hn.
  now rewrite (process_items_none py_str clean_body clock platform_id
                 _ 1 x Hin Hx).
Qed.

Lemma malformed_entry_discards_feed_witness :
  fetch_platform_data (fun _ => []) (fun s => s) (fun _ => Ex.now) (u "weibo")
    (Some (JList [JDict [(u "title", JStr (u "kept?"))]; JStr (u "oops")]))
  = [].
Proof.
  apply (@malformed_entry_discards_feed (fun _ => []) (fun s => s)
           (fun _ => Ex.now) (u "weibo")
           (JList [JDict [(u "title", JStr (u "kept?"))]; JStr (u "oops")])
           [JDict [(u "title", JStr (u "kept?"))]; JStr (u "oops")]
           (JStr (u "oops"))).
  - reflexivity.
  - simpl. tauto.
  - reflexivity.
Defined.

(** X29.  A title that comes out of [fetch_platform_data] is never empty,
    so for the headlines of a run the filter words take precedence without
    exception: when a filter word occurs in such a title, the title is
    classified as filtered. *)
Theorem fetched_title_filter_precedence
        (py_str : json -> str) (clean_body : str -> str) (clock : Z -> datetime)
        (platform_id : str) (response : option json)
        (lower : str -> str) (self : TrendAnalyzer) (p : Processed) (w : str) :
  In p (fetch_platform_data py_str clean_body clock platform_id response) ->
  In w self.(filter_words) ->
  occurs_in lower (p_title p) w = true ->
  match_keywords lower self (p_title p) = ([], true).
Proof.
  intros Hp Hw Ho.
  assert (Hne : p_title p <> []).
  { destruct (fetch_results py_str clean_body clock platform_id response)
      as [E|(data & feed & _ & _ & P)].
    - rewrite E in Hp. contradiction.
    - destruct (process_items_some _ _ _ _ _ _ P) as (H & _ & _).
      now destruct (H p Hp). }
  apply match_keywords_filtered; [exact Hne|].
  apply existsb_exists. now exists w.
Qed.

Lemma fetched_title_filter_precedence_witness :
  match_keywords ascii_lower (Ex.analyzer [u "AI"] [[]] [] []) (u "AI news")
  = ([], true).
Proof.
  apply (@fetched_title_filter_precedence (fun _ => []) (fun s => s)
           (fun _ => Ex.now) (u "weibo")
           (Some (JList [JDict [(u "title", JStr (u "AI news"))]]))
           ascii_lower (Ex.analyzer [u "AI"] [[]] [] [])
           {| p_title := u "AI news";
              p_url := JStr [];
              p_rank := 1;
              p_platform_id := u "weibo";
              p_timestamp := Ex.now;
              p_raw_data := JDict [(u "title", JStr (u "AI news"))] |} []).
  - vm_compute. left. reflexivity.
  - simpl. tauto.
  - reflexivity.
Defined.
